(** * A shallow embedding of the 5sim.net client (src/client.ts, src/errors.ts,
    src/types.ts) and the properties of its request and error mapping. *)

From Stdlib Require Import ZArith Ascii String List Lia.
From stdpp Require Import base strings gmap list pretty.

Set Warnings "-register-all".
Local Open Scope Z_scope.

(** ** JavaScript strings

    Strings are sequences of bytes (the UTF-8 form of the JavaScript string).
    [toLowerCase] changes the ASCII capitals only: a byte of a multi-byte
    character is at least 128 and never equals ['n'], ['o'] or any other
    ASCII letter, so the substring tests of [handleError] are not affected by
    the case mapping of characters outside ASCII. *)

Definition lower_ascii (c : ascii) : ascii :=
  let n := N_of_ascii c in
  if ((65 <=? n) && (n <=? 90))%N then ascii_of_N (n + 32) else c.

Fixpoint toLowerCase (s : string) : string :=
  match s with
  | EmptyString => EmptyString
  | String c s' => String (lower_ascii c) (toLowerCase s')
  end.

Fixpoint startsWith (s search : string) {struct search} : bool :=
  match search, s with
  | EmptyString, _ => true
  | String _ _, EmptyString => false
  | String a search', String b s' =>
      if Ascii.eqb a b then startsWith s' search' else false
  end.

(** [includes s search] is [s.includes(search)]. *)
Fixpoint includes (s search : string) : bool :=
  if startsWith s search then true
  else match s with
       | EmptyString => false
       | String _ s' => includes s' search
       end.

(** [a || b] on strings: the empty string is the only falsy one. *)
Definition str_or (a b : string) : string :=
  match a with EmptyString => b | _ => a end.

Definition str_truthy (s : string) : bool :=
  match s with EmptyString => false | _ => true end.

(** ** Numbers

    A JavaScript number is [NaN], an infinity, zero, or a finite value given
    the way [Number::toString] takes it: a sign, the decimal digits [s] of its
    shortest representation and the exponent [n], the value being
    [s * 10 ^ (n - k)] for [k] the number of digits of [s].  Every number of the
    program has exactly one such form, with [s] not a multiple of ten; [Zero]
    stands for both zeros.  [Number_toString] is [Number::toString] in radix
    10, and the falsy numbers are zero and [NaN]. *)

Inductive number : Type :=
  | NaN
  | Infinity (negative : bool)
  | Zero
  | Finite (negative : bool) (s : positive) (n : Z).

Definition number_truthy (x : number) : bool :=
  match x with
  | NaN | Zero => false
  | Infinity _ | Finite _ _ _ => true
  end.

(** [x > 0] *)
Definition number_positive (x : number) : bool :=
  match x with
  | Infinity false | Finite false _ _ => true
  | _ => false
  end.

Fixpoint zeros (m : nat) : string :=
  match m with
  | O => EmptyString
  | S m' => String "0" (zeros m')
  end.

Definition Number_toString (x : number) : string :=
  match x with
  | NaN => "NaN"
  | Zero => "0"
  | Infinity negative => (if negative then "-" else "") +:+ "Infinity"
  | Finite negative s n =>
      let d : string := pretty (Npos s) in
      let k := Z.of_nat (String.length d) in
      (if negative then "-" else "")
        +:+ (if (k <=? n) && (n <=? 21) then d +:+ zeros (Z.to_nat (n - k))
             else if (0 <? n) && (n <=? 21) then
               substring 0 (Z.to_nat n) d +:+ "."
                 +:+ substring (Z.to_nat n) (Z.to_nat (k - n)) d
             else if (-6 <? n) && (n <=? 0) then
               "0." +:+ zeros (Z.to_nat (- n)) +:+ d
             else
               let e := n - 1 in
               let exponent : string :=
                 (if e <? 0 then "-" else "+") +:+ pretty (Z.abs e) in
               match d with
               | String c EmptyString => String c ("e" +:+ exponent)
               | String c rest => String c ("." +:+ rest +:+ "e" +:+ exponent)
               | EmptyString => "e" +:+ exponent
               end)
  end.

(** The number an integer literal denotes: its digits without the trailing
    zeros, which go into the exponent. *)
Fixpoint strip_zeros (fuel : nat) (p : positive) (t : Z) : positive * Z :=
  match fuel with
  | O => (p, t)
  | S fuel' =>
      match (Npos p mod 10)%N, (Npos p / 10)%N with
      | N0, Npos q => strip_zeros fuel' q (t + 1)
      | _, _ => (p, t)
      end
  end.

Definition num_of_pos (negative : bool) (p : positive) : number :=
  let '(s, t) := strip_zeros (Pos.size_nat p) p 0 in
  Finite negative s (Z.of_nat (String.length (pretty (Npos s))) + t).

Definition num_of_Z (z : Z) : number :=
  match z with
  | Z0 => Zero
  | Zpos p => num_of_pos false p
  | Zneg p => num_of_pos true p
  end.

(** Order ids and HTTP status codes are integers, kept as such; an integer
    below [10 ^ 21] in magnitude prints as its decimal numeral. *)
Definition num_toString (n : Z) : string := pretty n.

(** ** JavaScript values ([any])

    The body of a response is whatever the transport hands over: a string, or
    a parsed JSON document. *)

Inductive value : Type :=
  | VUndefined
  | VNull
  | VBool (b : bool)
  | VNum (n : number)
  | VStr (s : string)
  | VArr (l : list value)
  | VObj (m : gmap string value).

Definition truthy (v : value) : bool :=
  match v with
  | VUndefined | VNull => false
  | VBool b => b
  | VNum n => number_truthy n
  | VStr s => str_truthy s
  | VArr _ | VObj _ => true
  end.

(** [a || b] *)
Definition js_or (a b : value) : value := if truthy a then a else b.

(** [(v as any)?.key] : own property of an object, [undefined] on anything
    else that a response body can be. *)
Definition get_prop (v : value) (key : string) : value :=
  match v with
  | VObj m => default VUndefined (m !! key)
  | _ => VUndefined
  end.

(** [v[i]] on arrays. *)
Definition get_index (v : value) (i : nat) : value :=
  match v with
  | VArr l => default VUndefined (l !! i)
  | _ => VUndefined
  end.

Fixpoint join (sep : string) (l : list string) : string :=
  match l with
  | [] => EmptyString
  | [x] => x
  | x :: l' => x +:+ sep +:+ join sep l'
  end.

(** The abstract operation ToString raises a [TypeError] on an object that
    has a property [toString] of its own: a value from JSON is never callable,
    and the inherited [valueOf] gives the object back.  On an array it joins
    the conversions of the elements, so it raises when one of them does. *)
Fixpoint unprintable (v : value) : bool :=
  match v with
  | VObj m => bool_decide (is_Some (m !! "toString"))
  | VArr l => existsb unprintable l
  | _ => false
  end.

(** The result of ToString when it does not raise. *)
Fixpoint ToString (v : value) : string :=
  match v with
  | VUndefined => "undefined"
  | VNull => "null"
  | VBool true => "true"
  | VBool false => "false"
  | VNum n => Number_toString n
  | VStr s => s
  | VArr l =>
      join ","
        (map (fun x => match x with
                       | VUndefined | VNull => EmptyString
                       | _ => ToString x
                       end) l)
  | VObj _ => "[object Object]"
  end.

(** ** src/errors.ts *)

Inductive ErrorName : Type :=
  | FiveSimErrorName
  | AuthenticationErrorName
  | RateLimitErrorName
  | ServiceUnavailableErrorName
  | NoNumbersErrorName.

(** An instance of [FiveSimError] or of one of its subclasses. [response] is
    [VUndefined] when the constructor was not given one. *)
Record FiveSimErrorObj : Type := mkError {
  name : ErrorName;
  message : string;
  statusCode : option Z;
  response : value;
}.

(** The result of evaluating a function body: it returns, or a [TypeError]
    escapes it. *)
Inductive completion (A : Type) : Type :=
  | Returns (a : A)
  | ThrowsTypeError (what : string).
Arguments Returns {A} a.
Arguments ThrowsTypeError {A} what.

(** [super(message)] of [Error]: an undefined message leaves the empty
    message of the prototype, anything else is converted by ToString, which
    may raise. *)
Definition Error_message (m : value) : completion string :=
  match m with
  | VUndefined => Returns EmptyString
  | _ =>
      if unprintable m
      then ThrowsTypeError "Cannot convert object to primitive value"
      else Returns (ToString m)
  end.

(** [new FiveSimError(message, statusCode, response)] *)
Definition FiveSimError (msg : value) (statusCode : option Z) (response : value)
  : completion FiveSimErrorObj :=
  match Error_message msg with
  | Returns s => Returns (mkError FiveSimErrorName s statusCode response)
  | ThrowsTypeError what => ThrowsTypeError what
  end.

(** A subclass constructor, called without a message or with a string: the
    default message applies when the argument is absent; [super(message, code)]
    fixes the status code and passes no response; [name] is overwritten. *)
Definition subclass (n : ErrorName) (dflt : string) (code : Z)
    (msg : option string) : FiveSimErrorObj :=
  mkError n (default dflt msg) (Some code) VUndefined.

Definition AuthenticationError : option string -> FiveSimErrorObj :=
  subclass AuthenticationErrorName "Invalid or missing API key" 401.

Definition RateLimitError : option string -> FiveSimErrorObj :=
  subclass RateLimitErrorName
    "Rate limit exceeded. Please wait before making more requests." 429.

Definition ServiceUnavailableError : option string -> FiveSimErrorObj :=
  subclass ServiceUnavailableErrorName
    "Service temporarily unavailable. Server-side limits reached." 503.

Definition NoNumbersError : option string -> FiveSimErrorObj :=
  subclass NoNumbersErrorName
    "No numbers available for the requested service/country/operator" 400.

(** ** The transport's view of a failed request (axios) *)

Record AxiosResponse : Type := mkResponse {
  status : Z;
  data : value;
}.

(** [AxiosError]: [ax_response] is absent when no HTTP response arrived. *)
Record AxiosError : Type := mkAxiosError {
  ax_message : string;
  ax_response : option AxiosResponse;
}.

(** ** src/client.ts, [handleError] *)

(** [typeof data === 'string' ? data : (data as any)?.message || dflt] *)
Definition message_of (data : value) (dflt : string) : value :=
  match data with
  | VStr _ => data
  | _ => js_or (get_prop data "message") (VStr dflt)
  end.

Definition handleError (error : AxiosError) : completion FiveSimErrorObj :=
  match ax_response error with
  | None =>
      FiveSimError (VStr (str_or (ax_message error) "Network error"))
        None VUndefined
  | Some r =>
      let status := status r in
      let data := data r in
      if status =? 401 then Returns (AuthenticationError None)
      else if status =? 429 then Returns (RateLimitError None)
      else if status =? 503 then Returns (ServiceUnavailableError None)
      else if status =? 400 then
        match message_of data "" with
        | VStr message =>
            if includes (toLowerCase message) "no"
               || includes (toLowerCase message) "not available"
            then Returns (NoNumbersError (Some message))
            else FiveSimError (js_or (VStr message) (VStr "Bad request"))
                   (Some status) data
        | _ => ThrowsTypeError "message.toLowerCase is not a function"
        end
      else
        let msg := message_of data "Unknown error" in
        FiveSimError msg (Some status) data
  end.

(** ** URLSearchParams

    The list of name-value pairs in insertion order; [toString] is the
    application/x-www-form-urlencoded serializer. *)

Definition hex_digit (n : N) : ascii :=
  if (n <? 10)%N then ascii_of_N (48 + n) else ascii_of_N (55 + n).

Definition form_safe (c : ascii) : bool :=
  let n := N_of_ascii c in
  ((48 <=? n) && (n <=? 57) || (65 <=? n) && (n <=? 90)
   || (97 <=? n) && (n <=? 122)
   || (n =? 42) || (n =? 45) || (n =? 46) || (n =? 95))%N.

Definition form_encode_byte (c : ascii) : string :=
  if form_safe c then String c EmptyString
  else if (N_of_ascii c =? 32)%N then "+"
  else String "%" (String (hex_digit (N_of_ascii c / 16))
                     (String (hex_digit (N_of_ascii c mod 16)) EmptyString)).

Fixpoint form_encode (s : string) : string :=
  match s with
  | EmptyString => EmptyString
  | String c s' => form_encode_byte c +:+ form_encode s'
  end.

Definition URLSearchParams : Type := list (string * string).

Definition params_append (p : URLSearchParams) (k v : string) : URLSearchParams :=
  p ++ [(k, v)].

Definition params_toString (p : URLSearchParams) : string :=
  join "&" (map (fun kv => form_encode (fst kv) +:+ "=" +:+ form_encode (snd kv)) p).

(** [`${path}${queryString ? `?${queryString}` : ''}`] *)
Definition with_query (path queryString : string) : string :=
  path +:+ (if str_truthy queryString then "?" +:+ queryString else EmptyString).

(** ** src/types.ts *)

Record FiveSimConfig : Type := mkConfig {
  apiKey : string;
  baseUrl : option string;
  timeout : option number;
}.

Inductive OrderCategory : Type := HOSTING | ACTIVATION.

Definition OrderCategory_value (c : OrderCategory) : string :=
  match c with
  | HOSTING => "hosting"
  | ACTIVATION => "activation"
  end.

Record OrderHistoryOptions : Type := mkOrderHistoryOptions {
  category : option OrderCategory;
  limit : option number;
  offset : option number;
}.

Record GetPricesOptions : Type := mkGetPricesOptions {
  prices_country : option string;
  prices_product : option string;
}.

Record BuyActivationOptions : Type := mkBuyActivationOptions {
  act_country : string;
  act_operator : string;
  act_product : string;
  forwarding : option string;
}.

Record BuyHostingOptions : Type := mkBuyHostingOptions {
  host_country : string;
  host_operator : string;
  host_product : string;
}.

(** ** The axios instance and the network

    axios is a library the client builds on; it is modelled at its interface
    with the client: an instance keeps the defaults given to [axios.create] and
    puts them on every request it is asked for, it settles each [get] with the
    final response the transport hands back or with none, a final response
    with a status outside 2xx or a missing response rejects with an
    [AxiosError], and the rejection passes through the registered response
    interceptor.  What the transport does to obtain the final response, such as
    following redirects, is below this interface and not modelled.

    A request as the instance is asked for it: the defaults of the instance
    and the URL given to [get]. *)

Record Request : Type := mkRequest {
  method : string;
  req_baseURL : string;
  url : string;
  req_headers : gmap string string;
  req_timeout : number;
}.

(** What the transport hands back for one request: nothing (DNS failure,
    timeout, refused connection) with its message, or the final HTTP
    response. *)
Inductive Reply : Type :=
  | NoReply (reason : string)
  | HttpReply (r : AxiosResponse).

(** The transport and the remote side: the answer may depend on the requests
    made before. *)
Definition Network : Type := list Request -> Request -> Reply.

(** The reason a promise is rejected with. *)
Inductive Rejection : Type :=
  | RejectError (e : FiveSimErrorObj)
  | RejectTypeError (what : string).

Inductive Promise (A : Type) : Type :=
  | Fulfilled (a : A)
  | Rejected (reason : Rejection).
Arguments Fulfilled {A} a.
Arguments Rejected {A} reason.

(** An asynchronous computation of the client: it reads the network, appends
    the requests it asks the instance for to the log of requests made so far,
    and settles. *)
Definition Client (A : Type) : Type :=
  Network -> list Request -> list Request * Promise A.

#[export] Instance Client_ret : MRet Client :=
  fun A (a : A) _ sent => (sent, Fulfilled a).

#[export] Instance Client_bind : MBind Client :=
  fun A B (f : A -> Client B) (m : Client A) net sent =>
    match m net sent with
    | (sent', Fulfilled a) => f a net sent'
    | (sent', Rejected reason) => (sent', Rejected reason)
    end.

Record AxiosInstance : Type := mkInstance {
  baseURL : string;
  inst_timeout : number;
  headers : gmap string string;
  (** the rejection handler registered with [interceptors.response.use] *)
  onRejected : AxiosError -> Rejection;
}.

(** axios' default [validateStatus]. *)
Definition validateStatus (status : Z) : bool :=
  (200 <=? status) && (status <? 300).

(** [instance.get(url)]: one request is made of the transport; a final
    response with a status outside 2xx, or no response, becomes an
    [AxiosError] handed to the rejection handler. *)
Definition axios_get (inst : AxiosInstance) (url : string) : Client AxiosResponse :=
  fun net sent =>
    let req := mkRequest "GET" (baseURL inst) url (headers inst) (inst_timeout inst) in
    (sent ++ [req],
     match net sent req with
     | NoReply reason => Rejected (onRejected inst (mkAxiosError reason None))
     | HttpReply r =>
         if validateStatus (status r) then Fulfilled r
         else Rejected (onRejected inst
                (mkAxiosError ("Request failed with status code " +:+ num_toString (status r))
                   (Some r)))
     end).

(** ** src/client.ts, class [FiveSimClient] *)

Record FiveSimClient : Type := mkClient {
  client : AxiosInstance;
}.

(** [Promise.reject(this.handleError(error))]; a [TypeError] escaping
    [handleError] rejects the promise as well. *)
Definition interceptor (error : AxiosError) : Rejection :=
  match handleError error with
  | Returns e => RejectError e
  | ThrowsTypeError what => RejectTypeError what
  end.

(** [if (o)] on an optional string or number: present and truthy. *)
Definition opt_truthy_str (o : option string) : option string :=
  match o with
  | Some s => if str_truthy s then Some s else None
  | None => None
  end.

Definition opt_truthy_num (o : option number) : option number :=
  match o with
  | Some n => if number_truthy n then Some n else None
  | None => None
  end.

(** The constructor: [config.baseUrl || 'https://5sim.net/v1'],
    [config.timeout || 30000], the two headers, and the error interceptor. *)
Definition new_FiveSimClient (config : FiveSimConfig) : FiveSimClient :=
  let baseURL := default "https://5sim.net/v1" (opt_truthy_str (baseUrl config)) in
  mkClient
    (mkInstance baseURL
       (default (num_of_Z 30000) (opt_truthy_num (timeout config)))
       (<["Authorization" := "Bearer " +:+ apiKey config]>
          (<["Accept" := "application/json"]> ∅))
       interceptor).

Definition getProfile (this : FiveSimClient) : Client value :=
  r ← axios_get (client this) "/user/profile";
  mret (data r).

(** [if (options?.category)], [if (options?.limit)] and
    [if (options?.offset !== undefined)], in that order. *)
Definition getOrderHistory_params (options : option OrderHistoryOptions)
  : URLSearchParams :=
  let params : URLSearchParams := [] in
  let params :=
    match opt_truthy_str (OrderCategory_value <$> options ≫= category) with
    | Some c => params_append params "category" c
    | None => params
    end in
  let params :=
    match opt_truthy_num (options ≫= limit) with
    | Some n => params_append params "limit" (Number_toString n)
    | None => params
    end in
  match options ≫= offset with
  | Some n => params_append params "offset" (Number_toString n)
  | None => params
  end.

Definition getOrderHistory_url (options : option OrderHistoryOptions) : string :=
  with_query "/user/orders" (params_toString (getOrderHistory_params options)).

Definition getOrderHistory (this : FiveSimClient)
    (options : option OrderHistoryOptions) : Client value :=
  r ← axios_get (client this) (getOrderHistory_url options);
  mret (data r).

Definition getCountries (this : FiveSimClient) : Client value :=
  r ← axios_get (client this) "/guest/countries";
  mret (data r).

Definition getProducts (this : FiveSimClient) (country operator : string)
  : Client value :=
  r ← axios_get (client this) ("/guest/products/" +:+ country +:+ "/" +:+ operator);
  mret (data r).

Definition getPrices_params (options : option GetPricesOptions) : URLSearchParams :=
  let params : URLSearchParams := [] in
  let params :=
    match opt_truthy_str (options ≫= prices_country) with
    | Some c => params_append params "country" c
    | None => params
    end in
  match opt_truthy_str (options ≫= prices_product) with
  | Some p => params_append params "product" p
  | None => params
  end.

Definition getPrices_url (options : option GetPricesOptions) : string :=
  with_query "/guest/prices" (params_toString (getPrices_params options)).

Definition getPrices (this : FiveSimClient) (options : option GetPricesOptions)
  : Client value :=
  r ← axios_get (client this) (getPrices_url options);
  mret (data r).

Definition buyActivation_path (options : BuyActivationOptions) : string :=
  "/user/buy/activation/" +:+ act_country options +:+ "/"
    +:+ act_operator options +:+ "/" +:+ act_product options.

Definition buyActivation_params (options : BuyActivationOptions) : URLSearchParams :=
  let params : URLSearchParams := [] in
  match opt_truthy_str (forwarding options) with
  | Some _ => params_append params "forwarding" "1"
  | None => params
  end.

Definition buyActivation_url (options : BuyActivationOptions) : string :=
  with_query (buyActivation_path options)
    (params_toString (buyActivation_params options)).

Definition buyActivation (this : FiveSimClient) (options : BuyActivationOptions)
  : Client value :=
  r ← axios_get (client this) (buyActivation_url options);
  mret (data r).

Definition buyHosting (this : FiveSimClient) (options : BuyHostingOptions)
  : Client value :=
  r ← axios_get (client this)
        ("/user/buy/hosting/" +:+ host_country options +:+ "/"
           +:+ host_operator options +:+ "/" +:+ host_product options);
  mret (data r).

Definition checkOrder (this : FiveSimClient) (id : Z) : Client value :=
  r ← axios_get (client this) ("/user/check/" +:+ num_toString id);
  mret (data r).

Definition finishOrder (this : FiveSimClient) (id : Z) : Client value :=
  r ← axios_get (client this) ("/user/finish/" +:+ num_toString id);
  mret (data r).

Definition cancelOrder (this : FiveSimClient) (id : Z) : Client value :=
  r ← axios_get (client this) ("/user/cancel/" +:+ num_toString id);
  mret (data r).

Definition banNumber (this : FiveSimClient) (id : Z) : Client value :=
  r ← axios_get (client this) ("/user/ban/" +:+ num_toString id);
  mret (data r).

(** One invocation of a public method, with its arguments. *)
Inductive Call : Type :=
  | CallGetProfile
  | CallGetOrderHistory (options : option OrderHistoryOptions)
  | CallGetCountries
  | CallGetProducts (country operator : string)
  | CallGetPrices (options : option GetPricesOptions)
  | CallBuyActivation (options : BuyActivationOptions)
  | CallBuyHosting (options : BuyHostingOptions)
  | CallCheckOrder (id : Z)
  | CallFinishOrder (id : Z)
  | CallCancelOrder (id : Z)
  | CallBanNumber (id : Z).

Definition invoke (this : FiveSimClient) (c : Call) : Client value :=
  match c with
  | CallGetProfile => getProfile this
  | CallGetOrderHistory options => getOrderHistory this options
  | CallGetCountries => getCountries this
  | CallGetProducts country operator => getProducts this country operator
  | CallGetPrices options => getPrices this options
  | CallBuyActivation options => buyActivation this options
  | CallBuyHosting options => buyHosting this options
  | CallCheckOrder id => checkOrder this id
  | CallFinishOrder id => finishOrder this id
  | CallCancelOrder id => cancelOrder this id
  | CallBanNumber id => banNumber this id
  end.

(** The URL each method hands to [get]. *)
Definition call_url (c : Call) : string :=
  match c with
  | CallGetProfile => "/user/profile"
  | CallGetOrderHistory options => getOrderHistory_url options
  | CallGetCountries => "/guest/countries"
  | CallGetProducts country operator =>
      "/guest/products/" +:+ country +:+ "/" +:+ operator
  | CallGetPrices options => getPrices_url options
  | CallBuyActivation options => buyActivation_url options
  | CallBuyHosting options =>
      "/user/buy/hosting/" +:+ host_country options +:+ "/"
        +:+ host_operator options +:+ "/" +:+ host_product options
  | CallCheckOrder id => "/user/check/" +:+ num_toString id
  | CallFinishOrder id => "/user/finish/" +:+ num_toString id
  | CallCancelOrder id => "/user/cancel/" +:+ num_toString id
  | CallBanNumber id => "/user/ban/" +:+ num_toString id
  end.

(** ** What one invocation does, in closed form *)

(** The request that [invoke] issues for a call. *)
Definition request_of (config : FiveSimConfig) (c : Call) : Request :=
  let inst := client (new_FiveSimClient config) in
  mkRequest "GET" (baseURL inst) (call_url c) (headers inst) (inst_timeout inst).

(** How the promise of a method settles on the reply to its request. *)
Definition settle (reply : Reply) : Promise value :=
  match reply with
  | NoReply reason => Rejected (interceptor (mkAxiosError reason None))
  | HttpReply r =>
      if validateStatus (status r) then Fulfilled (data r)
      else Rejected (interceptor
             (mkAxiosError
                ("Request failed with status code " +:+ num_toString (status r))
                (Some r)))
  end.

(** The kinds of the error taxonomy as a caller tells them apart: by class,
    and within the base class by the presence of a status code. *)
Inductive ErrorKind : Type :=
  | GenericKind
  | AuthenticationKind
  | RateLimitKind
  | ServiceUnavailableKind
  | NoNumbersKind
  | TransportKind.

Definition kind_of (e : FiveSimErrorObj) : ErrorKind :=
  match name e with
  | AuthenticationErrorName => AuthenticationKind
  | RateLimitErrorName => RateLimitKind
  | ServiceUnavailableErrorName => ServiceUnavailableKind
  | NoNumbersErrorName => NoNumbersKind
  | FiveSimErrorName =>
      match statusCode e with
      | Some _ => GenericKind
      | None => TransportKind
      end
  end.

(** A query parameter appears in the query string. *)
Definition has_param (k : string) (p : URLSearchParams) : Prop :=
  In k (map fst p).

(** The message text that [handleError] inspects for a 400 response is a
    string: the body is one, or its [message] property is a string or falsy. *)
Definition textual_message (data : value) : Prop :=
  exists s, message_of data "" = VStr s.

(** A check-order body with one received SMS. *)
Definition sample_sms : gmap string value :=
  <["created_at" := VStr "2024-01-01T11:00:00Z"]>
    (<["date" := VStr "2024-01-01T11:00:00Z"]>
       (<["sender" := VStr "Telegram"]>
          (<["text" := VStr "Your code is 12345"]>
             (<["code" := VStr "12345"]> ∅)))).

Definition sample_order : gmap string value :=
  <["id" := VNum (num_of_Z 12345)]>
    (<["phone" := VStr "79001234567"]>
       (<["operator" := VStr "mts"]>
          (<["product" := VStr "telegram"]>
             (<["status" := VStr "RECEIVED"]>
                (<["expires" := VStr "2024-01-01T12:00:00Z"]>
                   (<["sms" := VArr [VObj sample_sms]]> ∅)))))).

(** ** The characters of a query string *)

Fixpoint string_forall (P : ascii -> bool) (s : string) : bool :=
  match s with
  | EmptyString => true
  | String c s' => P c && string_forall P s'
  end.

Definition encoded_char (c : ascii) : bool :=
  form_safe c || Ascii.eqb c "+" || Ascii.eqb c "%".

Definition query_char (c : ascii) : bool :=
  encoded_char c || Ascii.eqb c "&" || Ascii.eqb c "=".

(** ** What a caller reads off a rejection *)

(** [error.statusCode]: a [TypeError] has no such property. *)
Definition rejection_statusCode (reason : Rejection) : option Z :=
  match reason with
  | RejectError e => statusCode e
  | RejectTypeError _ => None
  end.

(** The message that [handleError] has to work with can be worked with: for
    400 it is a string (a string method is applied to it), for a status
    without a class of its own it can be converted to a string. *)
Definition usable_message (r : AxiosResponse) : Prop :=
  if status r =? 400 then textual_message (data r)
  else if (status r =? 401) || (status r =? 429) || (status r =? 503) then True
  else unprintable (message_of (data r) "Unknown error") = false.

(** The calls that act on one order. *)
Definition order_call (c : Call) : bool :=
  match c with
  | CallCheckOrder _ | CallFinishOrder _ | CallCancelOrder _ | CallBanNumber _ => true
  | _ => false
  end.

(** ** examples/test-api.ts, [testActivation]

    The script works on untyped response bodies, so the accesses it makes are
    modelled on [value].  The text it prints and how long it sleeps between
    polls are left out; the member accesses and the conversions to strings made
    for printing are kept, since they can raise a [TypeError]. *)

Definition nullish (v : value) : bool :=
  match v with
  | VUndefined | VNull => true
  | _ => false
  end.

(** [v.length]; of a string it is used for its sign only, which the count
    of bytes shares with the count of UTF-16 units. *)
Definition get_length (v : value) : value :=
  match v with
  | VStr s => VNum (num_of_Z (Z.of_nat (String.length s)))
  | VArr l => VNum (num_of_Z (Z.of_nat (length l)))
  | VObj m => default VUndefined (m !! "length")
  | _ => VUndefined
  end.

(** [v[0]] on a truthy [v]; on a string it is its first character. *)
Definition get_first (v : value) : value :=
  match v with
  | VArr l => default VUndefined (l !! 0%nat)
  | VStr (String c _) => VStr (String c EmptyString)
  | VObj m => default VUndefined (m !! "0")
  | _ => VUndefined
  end.

(** [v.status === s] *)
Definition status_is (v : value) (s : string) : bool :=
  match get_prop v "status" with
  | VStr t => String.eqb t s
  | _ => false
  end.

Definition throw {A : Type} (reason : Rejection) : Client A :=
  fun _ sent => (sent, Rejected reason).

(** [try { m } catch (error) { h error }] *)
Definition try_catch {A : Type} (m : Client A) (h : Rejection -> Client A)
  : Client A :=
  fun net sent =>
    match m net sent with
    | (sent', Rejected reason) => h reason net sent'
    | settled => settled
    end.

(** Evaluating [v.key] for a key that is neither an index nor [length]: a
    [TypeError] on [null] and [undefined], the property otherwise. *)
Definition read_member (v : value) (key : string) : Client value :=
  if nullish v
  then throw (RejectTypeError
                ("Cannot read properties of " +:+ ToString v
                   +:+ " (reading '" +:+ key +:+ "')"))
  else mret (get_prop v key).

(** [error instanceof NoNumbersError] *)
Definition instanceof_NoNumbersError (error : Rejection) : bool :=
  match error with
  | RejectError e =>
      match name e with
      | NoNumbersErrorName => true
      | _ => false
      end
  | RejectTypeError _ => false
  end.

(** A template literal converting [v]. *)
Definition convert (v : value) : Client string :=
  if unprintable v
  then throw (RejectTypeError "Cannot convert object to primitive value")
  else mret (ToString v).

(** The values converted by one or more [console.log] of template literals. *)
Definition print (vs : list value) : Client unit :=
  if existsb unprintable vs
  then throw (RejectTypeError "Cannot convert object to primitive value")
  else mret tt.

(** The order methods as the script calls them, with [order.id] as it came in
    the body: the template literal converts whatever it is. *)
Definition checkOrder_at (this : FiveSimClient) (id : value) : Client value :=
  u ← convert id;
  r ← axios_get (client this) ("/user/check/" +:+ u);
  mret (data r).

Definition finishOrder_at (this : FiveSimClient) (id : value) : Client value :=
  u ← convert id;
  r ← axios_get (client this) ("/user/finish/" +:+ u);
  mret (data r).

Definition cancelOrder_at (this : FiveSimClient) (id : value) : Client value :=
  u ← convert id;
  r ← axios_get (client this) ("/user/cancel/" +:+ u);
  mret (data r).

Section Script.
(** [StringToNumber(s) > 0], the one conversion of the script that is not
    modelled: every statement below holds whatever it answers. *)
Variable str_positive : string -> bool.

(** [v > 0], for a [v] that converts to a primitive: the value the script
    compares is falsy, hence a primitive, or it has been printed just before. *)
Definition js_gt_zero (v : value) : bool :=
  match v with
  | VUndefined | VNull | VObj _ => false
  | VBool b => b
  | VNum n => number_positive n
  | VStr s => str_positive s
  | VArr _ => str_positive (ToString v)
  end.

(** [status.status === RECEIVED && status.sms && status.sms.length > 0] *)
Definition sms_received (status : value) : bool :=
  status_is status "RECEIVED"
  && truthy (get_prop status "sms")
  && js_gt_zero (get_length (get_prop status "sms")).

(** The polling loop with [n] rounds left: [true] when the function returned
    from inside the loop, [false] when the rounds are used up. *)
Fixpoint poll (this : FiveSimClient) (id : value) (n : nat) : Client bool :=
  match n with
  | O => mret false
  | S n' =>
      status ← checkOrder_at this id;
      text ← read_member status "status";
      _ ← print [text; js_or (get_length (get_prop status "sms")) (VNum Zero)];
      if sms_received status then
        let sms := get_first (get_prop status "sms") in
        sender ← read_member sms "sender";
        _ ← print [sender; get_prop sms "text";
                   js_or (get_prop sms "code") (VStr "N/A")];
        _ ← finishOrder_at this id;
        mret true
      else if status_is status "TIMEOUT" || status_is status "CANCELED" then
        mret true
      else poll this id n'
  end.

Definition testActivation (this : FiveSimClient) : Client unit :=
  try_catch
    (order ← buyActivation this
               (mkBuyActivationOptions "indonesia" "any" "telegram" None);
     phone ← read_member order "phone";
     _ ← print [phone; get_prop order "id"; get_prop order "price";
                get_prop order "expires"];
     returned ← poll this (get_prop order "id") 12;
     if returned : bool then mret tt
     else (_ ← cancelOrder_at this (get_prop order "id"); mret tt))
    (fun error =>
       if instanceof_NoNumbersError error then mret tt else throw error).

(** What allowed the script to finish the order: the reply to the check
    before it. *)
Definition finish_guard (reply : Reply) : Prop :=
  exists r,
    reply = HttpReply r
    /\ validateStatus (status r) = true
    /\ status_is (data r) "RECEIVED" = true
    /\ truthy (get_prop (data r) "sms") = true
    /\ js_gt_zero (get_length (get_prop (data r) "sms")) = true
    /\ nullish (get_first (get_prop (data r) "sms")) = false.

End Script.

(** The GET request of a client for a URL. *)
Definition request_to (config : FiveSimConfig) (u : string) : Request :=
  let inst := client (new_FiveSimClient config) in
  mkRequest "GET" (baseURL inst) u (headers inst) (inst_timeout inst).

(** The requests of the script: the purchase, and the check, finish and cancel
    of the order whose id converts to [id]. *)
Definition buy_request (config : FiveSimConfig) : Request :=
  request_to config "/user/buy/activation/indonesia/any/telegram".

Definition check_request (config : FiveSimConfig) (id : string) : Request :=
  request_to config ("/user/check/" +:+ id).

Definition finish_request (config : FiveSimConfig) (id : string) : Request :=
  request_to config ("/user/finish/" +:+ id).

Definition cancel_request (config : FiveSimConfig) (id : string) : Request :=
  request_to config ("/user/cancel/" +:+ id).

(** [status.status === TIMEOUT || status.status === CANCELED] *)
Definition order_closed (status : value) : bool :=
  status_is status "TIMEOUT" || status_is status "CANCELED".

Section Invocation.
Variable config : FiveSimConfig.
Variable net : Network.
Variable sent : list Request.

Lemma axios_get_run (url : string) :
  (r ← axios_get (client (new_FiveSimClient config)) url; mret (data r)) net sent
  = (sent ++ [mkRequest "GET"
                (baseURL (client (new_FiveSimClient config))) url
                (headers (client (new_FiveSimClient config)))
                (inst_timeout (client (new_FiveSimClient config)))],
     settle (net sent
               (mkRequest "GET"
                  (baseURL (client (new_FiveSimClient config))) url
                  (headers (client (new_FiveSimClient config)))
                  (inst_timeout (client (new_FiveSimClient config)))))).
Proof.
  unfold mbind, Client_bind, axios_get, settle, mret, Client_ret.
  cbn [onRejected client new_FiveSimClient].
  destruct (net sent _) as [reason|r]; [reflexivity|].
  destruct (validateStatus (status r)); reflexivity.
Qed.

Lemma invoke_run (c : Call) :
  invoke (new_FiveSimClient config) c net sent
  = (sent ++ [request_of config c], settle (net sent (request_of config c))).
Proof.
  destruct c; apply axios_get_run.
Qed.
End Invocation.

(** ** Substring tests *)

Lemma startsWith_spec (s search : string) :
  startsWith s search = true <-> exists rest, s = search +:+ rest.
Proof.
  revert s; induction search as [|a search IH]; intros s; simpl.
  - split; [intros _; exists s; reflexivity | reflexivity].
  - destruct s as [|b s]; simpl.
    + split; [discriminate | intros [rest H]; discriminate].
    + destruct (Ascii.eqb_spec a b) as [->|Hne].
      * rewrite IH. split; intros [rest H]; exists rest.
        -- now rewrite H.
        -- now inversion H.
      * split; [discriminate | intros [rest H]; simpl in H; injection H as Hab _; destruct (Hne (eq_sym Hab))].
Qed.

Lemma includes_spec (s search : string) :
  includes s search = true <-> exists pre post, s = pre +:+ search +:+ post.
Proof.
  induction s as [|c s IH]; simpl.
  - destruct (startsWith "" search) eqn:E.
    + apply startsWith_spec in E as [rest E].
      split; [intros _; exists EmptyString, rest; exact E | reflexivity].
    + split; [discriminate|].
      intros [pre [post H]]. destruct pre; simpl in H; [|discriminate].
      assert (startsWith "" search = true) as E'
        by (apply startsWith_spec; exists post; exact H).
      congruence.
  - destruct (startsWith (String c s) search) eqn:E.
    + apply startsWith_spec in E as [rest E].
      split; [intros _; exists EmptyString, rest; exact E | reflexivity].
    + rewrite IH. split.
      * intros [pre [post H]]. exists (String c pre), post. simpl. now rewrite H.
      * intros [pre [post H]]. destruct pre as [|c' pre]; simpl in H.
        -- assert (startsWith (String c s) search = true) as E'
             by (apply startsWith_spec; exists post; exact H).
           congruence.
        -- inversion H. exists pre, post. reflexivity.
Qed.

(** The second test of the heuristic never decides: a text that contains
    "not available" contains "no". *)
Lemma includes_not_available_no (s : string) :
  includes s "not available" = true -> includes s "no" = true.
Proof.
  rewrite !includes_spec. intros [pre [post H]].
  exists pre, ("t available" +:+ post). rewrite H. reflexivity.
Qed.

(** ** [handleError], case by case *)

Section Classification.
Variable msg : string.
Variable body : value.

Lemma handleError_no_response :
  handleError (mkAxiosError msg None)
  = Returns (mkError FiveSimErrorName (str_or msg "Network error") None VUndefined).
Proof. reflexivity. Qed.

Lemma handleError_401 :
  handleError (mkAxiosError msg (Some (mkResponse 401 body)))
  = Returns (AuthenticationError None).
Proof. reflexivity. Qed.

Lemma handleError_429 :
  handleError (mkAxiosError msg (Some (mkResponse 429 body)))
  = Returns (RateLimitError None).
Proof. reflexivity. Qed.

Lemma handleError_503 :
  handleError (mkAxiosError msg (Some (mkResponse 503 body)))
  = Returns (ServiceUnavailableError None).
Proof. reflexivity. Qed.

Lemma handleError_400_text (s : string) :
  message_of body "" = VStr s ->
  handleError (mkAxiosError msg (Some (mkResponse 400 body)))
  = Returns (if includes (toLowerCase s) "no"
             then NoNumbersError (Some s)
             else mkError FiveSimErrorName (str_or s "Bad request") (Some 400) body).
Proof.
  intros H. unfold handleError. cbn [ax_response status data].
  change (400 =? 401) with false. change (400 =? 429) with false.
  change (400 =? 503) with false. change (400 =? 400) with true.
  cbn iota. rewrite H.
  destruct (includes (toLowerCase s) "no") eqn:Hno; simpl.
  - reflexivity.
  - destruct (includes (toLowerCase s) "not available") eqn:Hna.
    + apply includes_not_available_no in Hna. congruence.
    + destruct s; reflexivity.
Qed.

Lemma handleError_400_not_text :
  ~ textual_message body ->
  handleError (mkAxiosError msg (Some (mkResponse 400 body)))
  = ThrowsTypeError "message.toLowerCase is not a function".
Proof.
  intros H. unfold handleError. cbn [ax_response status data].
  change (400 =? 401) with false. change (400 =? 429) with false.
  change (400 =? 503) with false. change (400 =? 400) with true.
  cbn iota.
  destruct (message_of body "") as [| |b|n|s|l|m] eqn:E; try reflexivity.
  exfalso. apply H. exists s. exact E.
Qed.

Lemma message_of_defined (dflt : string) :
  message_of body dflt <> VUndefined.
Proof.
  unfold message_of, js_or. destruct body; try discriminate.
  all: match goal with
       | |- (if truthy ?v then _ else _) <> _ =>
           destruct v; cbn [truthy]; try discriminate;
           match goal with
           | |- (if ?c then _ else _) <> _ => destruct c; discriminate
           end
       end.
Qed.

(** With a status that has no class of its own, the base error is built from
    the message of the body, unless the message cannot be converted. *)
Lemma handleError_other (code : Z) :
  code <> 401 -> code <> 429 -> code <> 503 -> code <> 400 ->
  handleError (mkAxiosError msg (Some (mkResponse code body)))
  = if unprintable (message_of body "Unknown error")
    then ThrowsTypeError "Cannot convert object to primitive value"
    else Returns (mkError FiveSimErrorName
                    (ToString (message_of body "Unknown error"))
                    (Some code) body).
Proof.
  intros H1 H2 H3 H4. unfold handleError. cbn [ax_response status data].
  apply Z.eqb_neq in H1, H2, H3, H4. rewrite H1, H2, H3, H4. cbn iota zeta.
  unfold FiveSimError, Error_message.
  pose proof (message_of_defined "Unknown error") as Hdef.
  destruct (message_of body "Unknown error"); try contradiction;
    try reflexivity.
  all: destruct (unprintable _); reflexivity.
Qed.
End Classification.

(** ** Unit checks: the cases of test/client.test.ts and a few more *)

Example test_constructor_defaults :
  let inst := client (new_FiveSimClient (mkConfig "test-api-key" None None)) in
  baseURL inst = "https://5sim.net/v1"
  /\ inst_timeout inst = num_of_Z 30000
  /\ Number_toString (inst_timeout inst) = "30000"
  /\ map_to_list (headers inst)
     = [("Accept", "application/json"); ("Authorization", "Bearer test-api-key")].
Proof. repeat split; vm_compute; reflexivity. Qed.

Example test_constructor_custom :
  baseURL (client (new_FiveSimClient
                     (mkConfig "test-key" (Some "https://custom.api") None)))
  = "https://custom.api"
  /\ inst_timeout (client (new_FiveSimClient
                             (mkConfig "test-key" None (Some (num_of_Z 60000)))))
     = num_of_Z 60000.
Proof. split; reflexivity. Qed.

Example test_urls :
  call_url CallGetProfile = "/user/profile"
  /\ call_url CallGetCountries = "/guest/countries"
  /\ call_url (CallGetProducts "russia" "any") = "/guest/products/russia/any"
  /\ call_url (CallBuyHosting (mkBuyHostingOptions "russia" "any" "telegram"))
     = "/user/buy/hosting/russia/any/telegram"
  /\ call_url (CallCheckOrder 12345) = "/user/check/12345"
  /\ call_url (CallFinishOrder 12345) = "/user/finish/12345"
  /\ call_url (CallCancelOrder 12345) = "/user/cancel/12345"
  /\ call_url (CallBanNumber 12345) = "/user/ban/12345".
Proof. repeat split. Qed.

Example test_error_handling :
  handleError (mkAxiosError "" (Some (mkResponse 401 (VStr "Unauthorized"))))
  = Returns (mkError AuthenticationErrorName "Invalid or missing API key"
               (Some 401) VUndefined)
  /\ handleError (mkAxiosError "" (Some (mkResponse 429 (VStr "Too many requests"))))
     = Returns (mkError RateLimitErrorName
                  "Rate limit exceeded. Please wait before making more requests."
                  (Some 429) VUndefined)
  /\ handleError (mkAxiosError "" (Some (mkResponse 400 (VStr "no free phones"))))
     = Returns (mkError NoNumbersErrorName "no free phones" (Some 400) VUndefined)
  /\ handleError (mkAxiosError "" (Some (mkResponse 400 (VStr "bad country"))))
     = Returns (mkError FiveSimErrorName "bad country" (Some 400) (VStr "bad country"))
  /\ handleError (mkAxiosError ""
                    (Some (mkResponse 400 (VObj {[ "message" := VStr "Not Available" ]}))))
     = Returns (mkError NoNumbersErrorName "Not Available" (Some 400) VUndefined)
  /\ handleError (mkAxiosError "" (Some (mkResponse 400 (VObj ∅))))
     = Returns (mkError FiveSimErrorName "Bad request" (Some 400) (VObj ∅))
  /\ handleError (mkAxiosError "" (Some (mkResponse 500 VNull)))
     = Returns (mkError FiveSimErrorName "Unknown error" (Some 500) VNull).
Proof. repeat split. Qed.

(** [Number::toString] on numbers of each shape. *)
Example test_Number_toString :
  Number_toString (num_of_Z 10) = "10"
  /\ Number_toString (num_of_Z 0) = "0"
  /\ Number_toString (num_of_Z (-12345)) = "-12345"
  /\ Number_toString (num_of_Z (10 ^ 20)) = "100000000000000000000"
  /\ Number_toString (num_of_Z (10 ^ 21)) = "1e+21"
  /\ Number_toString (Finite false 15 1) = "1.5"
  /\ Number_toString (Finite false 5 0) = "0.5"
  /\ Number_toString (Finite false 123456 3) = "123.456"
  /\ Number_toString (Finite false 1 (-5)) = "0.000001"
  /\ Number_toString (Finite true 15 (-6)) = "-1.5e-7"
  /\ Number_toString (Finite false 12 25) = "1.2e+24"
  /\ Number_toString NaN = "NaN"
  /\ Number_toString (Infinity true) = "-Infinity".
Proof. repeat split; vm_compute; reflexivity. Qed.

Example test_form_encode :
  form_encode "activation" = "activation"
  /\ form_encode "+1 234/5" = "%2B1+234%2F5"
  /\ params_toString [("country", "russia"); ("product", "telegram")]
     = "country=russia&product=telegram".
Proof. repeat split. Qed.

(** ** Error classification *)

(** C1: a response with status 400 whose JSON body carries a list under
    [message] is mapped neither to the no-numbers error nor to the generic
    fallback: [message.toLowerCase()] raises a [TypeError] inside
    [handleError], which returns no error at all. *)
Theorem handleError_400_list_message_throws :
  let body := VObj {[ "message" := VArr [VStr "limit must be a number"] ]} in
  message_of body "" = VArr [VStr "limit must be a number"]
  /\ handleError (mkAxiosError "Request failed with status code 400"
                    (Some (mkResponse 400 body)))
     = ThrowsTypeError "message.toLowerCase is not a function".
Proof.
  split; [reflexivity|].
  apply handleError_400_not_text. intros [s Hs]. vm_compute in Hs. discriminate.
Qed.

(** Away from that case and from messages that cannot be converted to a
    string, the mapping is the documented one: for every response with a
    usable message [handleError] returns a typed error carrying the status:
    the authentication, rate-limit and service-unavailable errors for 401, 429
    and 503 whatever the body; for 400 the no-numbers error with the message
    text when its lower-case form contains "no" or "not available", and
    otherwise the base error with the message (or "Bad request") and the body;
    for any other status the base error with the converted message, the status
    and the body. *)
Theorem handleError_classification (msg : string) (r : AxiosResponse) :
  usable_message r ->
  exists e,
    handleError (mkAxiosError msg (Some r)) = Returns e
    /\ statusCode e = Some (status r)
    /\ (status r = 401 -> e = AuthenticationError None)
    /\ (status r = 429 -> e = RateLimitError None)
    /\ (status r = 503 -> e = ServiceUnavailableError None)
    /\ (forall s, status r = 400 -> message_of (data r) "" = VStr s ->
           if includes (toLowerCase s) "no"
              || includes (toLowerCase s) "not available"
           then e = NoNumbersError (Some s)
           else e = mkError FiveSimErrorName (str_or s "Bad request")
                      (Some 400) (data r))
    /\ (status r <> 401 -> status r <> 429 -> status r <> 503 ->
        status r <> 400 ->
        e = mkError FiveSimErrorName
              (ToString (message_of (data r) "Unknown error"))
              (Some (status r)) (data r)).
Proof.
  destruct r as [code body]. unfold usable_message. cbn [status data].
  destruct (Z.eqb_spec code 400) as [->|H400].
  - intros [s Hs].
    rewrite (handleError_400_text msg body s Hs). eexists.
    split; [reflexivity|].
    split; [destruct (includes (toLowerCase s) "no"); reflexivity|].
    repeat split; try lia.
    intros s' _ Hs'. assert (s' = s) as -> by congruence.
    destruct (includes (toLowerCase s) "no") eqn:Hno; [reflexivity|].
    destruct (includes (toLowerCase s) "not available") eqn:Hna; [|reflexivity].
    apply includes_not_available_no in Hna. congruence.
  - destruct (Z.eqb_spec code 401) as [->|H401];
      [intros _; rewrite handleError_401; eexists; repeat split; intros; lia|].
    destruct (Z.eqb_spec code 429) as [->|H429];
      [intros _; rewrite handleError_429; eexists; repeat split; intros; lia|].
    destruct (Z.eqb_spec code 503) as [->|H503];
      [intros _; rewrite handleError_503; eexists; repeat split; intros; lia|].
    cbn [orb]. intros Hprint.
    rewrite handleError_other by assumption. rewrite Hprint. eexists.
    repeat split; intros; try contradiction.
Qed.

Lemma handleError_classification_witness :
  exists e,
    handleError (mkAxiosError "Request failed with status code 500"
                   (Some (mkResponse 500
                            (VObj {[ "message" := VNum (num_of_Z (10 ^ 21)) ]}))))
    = Returns e
    /\ statusCode e = Some 500
    /\ (500 = 401 -> e = AuthenticationError None)
    /\ (500 = 429 -> e = RateLimitError None)
    /\ (500 = 503 -> e = ServiceUnavailableError None)
    /\ (forall s, 500 = 400 ->
           message_of (VObj {[ "message" := VNum (num_of_Z (10 ^ 21)) ]}) ""
           = VStr s ->
           if includes (toLowerCase s) "no"
              || includes (toLowerCase s) "not available"
           then e = NoNumbersError (Some s)
           else e = mkError FiveSimErrorName (str_or s "Bad request")
                      (Some 400) (VObj {[ "message" := VNum (num_of_Z (10 ^ 21)) ]}))
    /\ (500 <> 401 -> 500 <> 429 -> 500 <> 503 -> 500 <> 400 ->
        e = mkError FiveSimErrorName
              (ToString (message_of (VObj {[ "message" := VNum (num_of_Z (10 ^ 21)) ]})
                           "Unknown error"))
              (Some 500) (VObj {[ "message" := VNum (num_of_Z (10 ^ 21)) ]})).
Proof.
  apply (handleError_classification "Request failed with status code 500"
           (mkResponse 500 (VObj {[ "message" := VNum (num_of_Z (10 ^ 21)) ]}))).
  vm_compute. reflexivity.
Defined.

(** Every error that [handleError] returns for a response carries the status
    of that response. *)
Lemma handleError_returned_statusCode
    (msg : string) (r : AxiosResponse) (e : FiveSimErrorObj) :
  handleError (mkAxiosError msg (Some r)) = Returns e ->
  statusCode e = Some (status r).
Proof.
  destruct r as [code body]. cbn [status].
  destruct (Z.eq_dec code 401) as [->|H401]; [intros [= <-]; reflexivity|].
  destruct (Z.eq_dec code 429) as [->|H429]; [intros [= <-]; reflexivity|].
  destruct (Z.eq_dec code 503) as [->|H503]; [intros [= <-]; reflexivity|].
  destruct (Z.eq_dec code 400) as [->|H400].
  - destruct (message_of body "") as [| |b|n|s|l|m] eqn:E.
    all: try (rewrite handleError_400_not_text by (intros [s' Hs']; congruence);
              discriminate).
    rewrite (handleError_400_text msg body s E).
    destruct (includes (toLowerCase s) "no"); intros [= <-]; reflexivity.
  - rewrite handleError_other by assumption.
    destruct (unprintable _); [discriminate|]. intros [= <-]. reflexivity.
Qed.

(** C10: for an HTTP 400 response whose JSON body carries a list under
    [message], the error that reaches the caller is the [TypeError] escaping
    [handleError]: it carries no [statusCode], exactly like the error for a
    request that received no response, so by its [statusCode] the caller takes
    this HTTP error for a transport failure.  The same happens for an HTTP 500
    response whose [message] is an object with a [toString] property. *)
Theorem http_400_rejection_without_statusCode :
  let body := VObj {[ "message" := VArr [VStr "limit must be a number"] ]} in
  let http :=
    interceptor (mkAxiosError "Request failed with status code 400"
                   (Some (mkResponse 400 body))) in
  let body' := VObj {[ "message" := VObj {[ "toString" := VNum (num_of_Z 1) ]} ]} in
  let http' :=
    interceptor (mkAxiosError "Request failed with status code 500"
                   (Some (mkResponse 500 body'))) in
  let transport := interceptor (mkAxiosError "Network Error" None) in
  http = RejectTypeError "message.toLowerCase is not a function"
  /\ rejection_statusCode http = None
  /\ http' = RejectTypeError "Cannot convert object to primitive value"
  /\ rejection_statusCode http' = None
  /\ rejection_statusCode transport = None
  /\ transport
     = RejectError (mkError FiveSimErrorName "Network Error" None VUndefined).
Proof.
  cbn zeta. unfold interceptor.
  rewrite handleError_400_not_text
    by (intros [s Hs]; vm_compute in Hs; discriminate).
  rewrite handleError_other by discriminate.
  repeat split.
Qed.

(** ** Failures without a response *)

(** C2, as stated, fails when the transport's message is empty: the error
    surfaced carries the text "Network error", not the (empty) message. *)
Lemma transport_failure_empty_message :
  let e := mkError FiveSimErrorName "Network error" None VUndefined in
  snd (invoke (new_FiveSimClient (mkConfig "test-api-key" None None))
         CallGetProfile (fun _ _ => NoReply "") [])
  = Rejected (RejectError e)
  /\ message e <> "".
Proof. split; [reflexivity | discriminate]. Qed.

(** C2 (amended): when no HTTP response is received for the request of a
    call, the promise is rejected with a base-class error that has no status
    code and no response, whose message is the transport's message, or
    "Network error" when that message is empty; its kind is the transport
    kind, not the authentication, rate-limit or generic (status-carrying)
    kind. *)
Theorem transport_failure_error
    (config : FiveSimConfig) (c : Call) (net : Network) (sent : list Request)
    (reason : string) :
  net sent (request_of config c) = NoReply reason ->
  exists e,
    snd (invoke (new_FiveSimClient config) c net sent) = Rejected (RejectError e)
    /\ message e = str_or reason "Network error"
    /\ (reason <> "" -> message e = reason)
    /\ name e = FiveSimErrorName
    /\ statusCode e = None
    /\ response e = VUndefined
    /\ kind_of e = TransportKind
    /\ kind_of e <> AuthenticationKind
    /\ kind_of e <> RateLimitKind
    /\ kind_of e <> GenericKind.
Proof.
  intros Hnet. rewrite invoke_run, Hnet. cbn [snd settle].
  unfold interceptor. rewrite handleError_no_response.
  eexists. split; [reflexivity|]. cbn.
  repeat split; try discriminate.
  intros Hne. destruct reason; [contradiction | reflexivity].
Qed.

Lemma transport_failure_error_witness :
  exists e,
    snd (invoke (new_FiveSimClient (mkConfig "test-api-key" None None))
           (CallCheckOrder 12345)
           (fun _ _ => NoReply "timeout of 30000ms exceeded") [])
    = Rejected (RejectError e)
    /\ message e = str_or "timeout of 30000ms exceeded" "Network error"
    /\ ("timeout of 30000ms exceeded" <> "" -> message e = "timeout of 30000ms exceeded")
    /\ name e = FiveSimErrorName
    /\ statusCode e = None
    /\ response e = VUndefined
    /\ kind_of e = TransportKind
    /\ kind_of e <> AuthenticationKind
    /\ kind_of e <> RateLimitKind
    /\ kind_of e <> GenericKind.
Proof.
  apply (transport_failure_error (mkConfig "test-api-key" None None)
           (CallCheckOrder 12345)
           (fun _ _ => NoReply "timeout of 30000ms exceeded") []
           "timeout of 30000ms exceeded").
  reflexivity.
Defined.

(** ** One request per invocation *)

(** C9: buy-activation answered by a 400 response whose JSON body carries a
    list under [message] issues exactly one GET request and is rejected at
    once, but the rejection is the [TypeError] that escapes [handleError], not
    a typed error of the taxonomy: status code and body are lost. *)
Theorem buyActivation_400_list_message_rejects_TypeError :
  let body := VObj {[ "message" := VArr [VStr "limit must be a number"] ]} in
  let config := mkConfig "test-api-key" None None in
  let c := CallBuyActivation (mkBuyActivationOptions "russia" "any" "telegram" None) in
  invoke (new_FiveSimClient config) c (fun _ _ => HttpReply (mkResponse 400 body)) []
  = ([request_of config c],
     Rejected (RejectTypeError "message.toLowerCase is not a function"))
  /\ method (request_of config c) = "GET"
  /\ url (request_of config c) = "/user/buy/activation/russia/any/telegram".
Proof.
  split; [|split; reflexivity].
  rewrite invoke_run. cbn [app]. f_equal.
Qed.

(** ** Query strings *)

Lemma pretty_N_go_nonempty (x : N) (s : string) :
  s <> "" -> pretty_N_go x s <> "".
Proof.
  revert s. induction (N.lt_wf_0 x) as [x _ IH]; intros s Hs.
  destruct (N.eq_dec x 0%N) as [->|Hx].
  - now rewrite pretty_N_go_0.
  - rewrite pretty_N_go_step by lia. apply IH.
    + apply N.div_lt; lia.
    + discriminate.
Qed.

Lemma pretty_N_nonempty (x : N) : pretty x <> "".
Proof.
  unfold pretty, pretty_N. destruct (decide (x = 0)%N) as [->|Hx]; [discriminate|].
  rewrite pretty_N_go_step by lia. apply pretty_N_go_nonempty. discriminate.
Qed.

Lemma append_nonempty_r (a b : string) : b <> "" -> a +:+ b <> "".
Proof. destruct a; [trivial | discriminate]. Qed.

Lemma Number_toString_nonempty (x : number) : Number_toString x <> "".
Proof.
  destruct x as [|negative| |negative s n]; try discriminate.
  - destruct negative; discriminate.
  - unfold Number_toString.
    pose proof (pretty_N_nonempty (Npos s)) as Hd.
    destruct negative; [discriminate|].
    change ("" +:+ ?x) with x.
    destruct ((Z.of_nat (String.length (pretty (N.pos s))) <=? n) && (n <=? 21)).
    { destruct (pretty (N.pos s)); [contradiction | discriminate]. }
    destruct ((0 <? n) && (n <=? 21)).
    { apply append_nonempty_r. discriminate. }
    destruct ((-6 <? n) && (n <=? 0)); [discriminate|].
    destruct (pretty (N.pos s)) as [|c [|c' rest]]; discriminate.
Qed.

Lemma number_truthy_iff (x : number) :
  number_truthy x = true <-> x <> Zero /\ x <> NaN.
Proof.
  destruct x; cbn; split; try discriminate; try (intros [H1 H2]; congruence);
    intros _; split; discriminate.
Qed.

(** The serialization is empty for the empty list only, so [with_query]
    writes the separator exactly when a parameter was appended. *)
Lemma params_toString_cons (kv : string * string) (p : URLSearchParams) :
  str_truthy (params_toString (kv :: p)) = true.
Proof.
  assert (params_toString (kv :: p) <> "") as H.
  { unfold params_toString. cbn [map join].
    destruct (map _ p).
    - apply append_nonempty_r. simpl. discriminate.
    - intros H. destruct (form_encode (fst kv)); simpl in H; discriminate. }
  destruct (params_toString (kv :: p)); [contradiction | reflexivity].
Qed.

Lemma append_empty_r (s : string) : s +:+ "" = s.
Proof.
  induction s as [|c s IH]; [reflexivity|].
  change (String c (s +:+ "") = String c s). now rewrite IH.
Qed.

Lemma with_query_params (path : string) (p : URLSearchParams) :
  with_query path (params_toString p)
  = match p with
    | [] => path
    | _ :: _ => path +:+ "?" +:+ params_toString p
    end.
Proof.
  unfold with_query. destruct p as [|kv p]; [apply append_empty_r|].
  now rewrite params_toString_cons.
Qed.

Lemma method_url (config : FiveSimConfig) (net : Network) (sent : list Request)
    (u : string) :
  map url (fst ((r ← axios_get (client (new_FiveSimClient config)) u;
                 mret (data r)) net sent))
  = map url sent ++ [u].
Proof. rewrite axios_get_run. cbn [fst]. now rewrite map_app. Qed.

(** The parameters of get-order-history, one conditional at a time. *)
Lemma getOrderHistory_params_eq (options : option OrderHistoryOptions) :
  getOrderHistory_params options
  = match options ≫= category with
    | Some c => [("category", OrderCategory_value c)]
    | None => []
    end
    ++ match options ≫= limit with
       | Some n => if number_truthy n then [("limit", Number_toString n)] else []
       | None => []
       end
    ++ match options ≫= offset with
       | Some n => [("offset", Number_toString n)]
       | None => []
       end.
Proof.
  unfold getOrderHistory_params, opt_truthy_num.
  destruct options as [[[[]|] [n|] [o|]]|];
    cbn [mbind option_bind fmap option_fmap option_map category limit offset];
    try destruct (number_truthy n); reflexivity.
Qed.

(** C3, as stated, fails for a limit of zero: the value is defined, yet no
    limit parameter is sent and the URL has no query string. *)
Lemma getOrderHistory_limit_zero_omitted :
  let options := Some (mkOrderHistoryOptions None (Some (num_of_Z 0)) None) in
  is_Some (options ≫= limit)
  /\ ~ has_param "limit" (getOrderHistory_params options)
  /\ getOrderHistory_url options = "/user/orders".
Proof.
  split; [eexists; reflexivity|]. split; [|reflexivity].
  intros H. exact H.
Qed.

(** C3 (amended): in the query string of the get-order-history request,
    category appears exactly when it is defined, offset appears exactly when
    it is defined, and limit appears exactly when it is defined and truthy,
    that is neither zero nor NaN; no other parameter appears and none is sent
    with an empty value; the URL is /user/orders alone when no parameter
    appears and /user/orders? followed by the serialized parameters otherwise.
    With category activation, limit 10 and offset 0 the URL is
    /user/orders?category=activation&limit=10&offset=0, with no options it is
    /user/orders, and with limit NaN and offset NaN it is
    /user/orders?offset=NaN. *)
Theorem getOrderHistory_query :
  forall options : option OrderHistoryOptions,
    let p := getOrderHistory_params options in
    (has_param "category" p <-> is_Some (options ≫= category))
    /\ (has_param "limit" p
        <-> exists n, options ≫= limit = Some n /\ n <> Zero /\ n <> NaN)
    /\ (has_param "offset" p <-> is_Some (options ≫= offset))
    /\ (forall k, has_param k p -> k = "category" \/ k = "limit" \/ k = "offset")
    /\ (forall k v, In (k, v) p -> v <> "")
    /\ getOrderHistory_url options
       = match p with
         | [] => "/user/orders"
         | _ :: _ => "/user/orders?" +:+ params_toString p
         end
    /\ (forall config net sent,
           map url (fst (getOrderHistory (new_FiveSimClient config) options net sent))
           = map url sent ++ [getOrderHistory_url options])
    /\ getOrderHistory_url
         (Some (mkOrderHistoryOptions (Some ACTIVATION) (Some (num_of_Z 10))
                  (Some (num_of_Z 0))))
       = "/user/orders?category=activation&limit=10&offset=0"
    /\ getOrderHistory_url None = "/user/orders"
    /\ getOrderHistory_url (Some (mkOrderHistoryOptions None None None))
       = "/user/orders"
    /\ getOrderHistory_url (Some (mkOrderHistoryOptions None (Some NaN) (Some NaN)))
       = "/user/orders?offset=NaN".
Proof.
  intros options p.
  assert (forall c, OrderCategory_value c <> "") as Hcat by (intros []; discriminate).
  pose proof Number_toString_nonempty as Hnum.
  split; [|split; [|split; [|split; [|split; [|split; [|split]]]]]].
  8: repeat split.
  7: intros; apply method_url.
  6: apply (with_query_params "/user/orders").
  all: subst p; rewrite getOrderHistory_params_eq; unfold has_param.
  all: destruct (options ≫= category) as [c|], (options ≫= limit) as [n|],
         (options ≫= offset) as [o|].
  all: try (pose proof (number_truthy_iff n) as Htruthy;
            destruct (number_truthy n)).
  all: cbn [app map fst In]; unfold is_Some.
  all: try solve [ intuition (try discriminate; try congruence; eauto) ].
  all: try solve [ split; [ intros _; eauto | intros _; intuition ] ].
  all: try solve [ split; [ intuition discriminate | intros [x Hx]; discriminate ] ].
  all: try solve [ split; [ intros _; exists n; split; [reflexivity|];
                            now apply Htruthy
                          | intros _; intuition ] ].
  all: try solve [ split; [ intuition discriminate
                          | intros [x [[= <-] Hx]]; apply Htruthy in Hx;
                            discriminate ] ].
  all: try solve [ split; [ intuition discriminate
                          | intros [x [Hx Hx']]; congruence ] ].
  all: try solve [ intros k v H; intuition (try congruence);
                   match goal with
                   | E : (_, _) = (_, _) |- _ => injection E as _ <-; auto
                   end ].
Qed.


(** C5: buy-activation with a forwarding value that is truthy (a non-empty
    string) requests /user/buy/activation/{country}/{operator}/{product}
    followed by exactly ?forwarding=1, whatever the forwarding string is; with
    forwarding absent it requests the path alone. *)
Theorem buyActivation_forwarding_query
    (config : FiveSimConfig) (net : Network) (sent : list Request)
    (country operator product : string) (fwd : option string) :
  fwd <> Some "" ->
  let options := mkBuyActivationOptions country operator product fwd in
  let path := "/user/buy/activation/" +:+ country +:+ "/" +:+ operator
                +:+ "/" +:+ product in
  map url (fst (buyActivation (new_FiveSimClient config) options net sent))
  = map url sent ++ [match fwd with
                     | Some _ => path +:+ "?forwarding=1"
                     | None => path
                     end].
Proof.
  intros Hfwd options path. unfold buyActivation. rewrite method_url.
  do 2 f_equal. unfold buyActivation_url. rewrite with_query_params.
  unfold buyActivation_params, options. cbn [forwarding opt_truthy_str].
  destruct fwd as [[|c f]|]; [congruence | reflexivity | reflexivity].
Qed.

Lemma buyActivation_forwarding_query_witness :
  map url (fst (buyActivation (new_FiveSimClient (mkConfig "test-api-key" None None))
                  (mkBuyActivationOptions "russia" "any" "telegram"
                     (Some "+1234567890"))
                  (fun _ _ => NoReply "Network Error") []))
  = ["/user/buy/activation/russia/any/telegram?forwarding=1"]
  /\ map url (fst (buyActivation (new_FiveSimClient (mkConfig "test-api-key" None None))
                     (mkBuyActivationOptions "russia" "any" "telegram" None)
                     (fun _ _ => NoReply "Network Error") []))
     = ["/user/buy/activation/russia/any/telegram"].
Proof.
  split.
  - apply (buyActivation_forwarding_query (mkConfig "test-api-key" None None)
             (fun _ _ => NoReply "Network Error") []
             "russia" "any" "telegram" (Some "+1234567890")).
    discriminate.
  - apply (buyActivation_forwarding_query (mkConfig "test-api-key" None None)
             (fun _ _ => NoReply "Network Error") []
             "russia" "any" "telegram" None).
    discriminate.
Defined.

(** ** The axios instance *)

(** C6: for every configuration and every call, guest endpoints included, the
    request issued carries an Authorization header that is exactly "Bearer "
    followed by the configured API key. *)
Theorem every_request_bearer :
  forall (config : FiveSimConfig) (c : Call) (net : Network) (sent : list Request),
  exists req,
    fst (invoke (new_FiveSimClient config) c net sent) = sent ++ [req]
    /\ url req = call_url c
    /\ req_headers req !! "Authorization" = Some ("Bearer " +:+ apiKey config)
    /\ req_headers req !! "Accept" = Some "application/json".
Proof.
  intros config c net sent. exists (request_of config c).
  rewrite invoke_run. split; [reflexivity|]. split; [reflexivity|].
  unfold request_of. cbn [req_headers headers client new_FiveSimClient].
  split.
  - apply lookup_insert_eq.
  - rewrite lookup_insert_ne by discriminate. apply lookup_insert_eq.
Qed.

(** C7: a supplied timeout of 0, which for axios means no deadline, is not
    used as given: the constructor replaces it by 30000, and every request of
    the client carries a deadline of 30000 ms. *)
Theorem constructor_timeout_zero_replaced :
  let config := mkConfig "test-key" None (Some (num_of_Z 0)) in
  let inst := client (new_FiveSimClient config) in
  timeout config = Some Zero
  /\ inst_timeout inst = num_of_Z 30000
  /\ Number_toString (inst_timeout inst) = "30000"
  /\ inst_timeout inst <> Zero
  /\ (forall c, req_timeout (request_of config c) = num_of_Z 30000).
Proof. repeat split; discriminate. Qed.

(** What the constructor does with each option: an absent or falsy [baseUrl]
    (the empty string) gives https://5sim.net/v1 and an absent or falsy
    [timeout] (zero, NaN) gives 30000; a truthy value is taken as given; every
    request carries the base URL and deadline so chosen. *)
Lemma constructor_defaults :
  forall config : FiveSimConfig,
    let inst := client (new_FiveSimClient config) in
    (baseUrl config = None -> baseURL inst = "https://5sim.net/v1")
    /\ (baseUrl config = Some "" -> baseURL inst = "https://5sim.net/v1")
    /\ (forall s, baseUrl config = Some s -> s <> "" -> baseURL inst = s)
    /\ (timeout config = None -> inst_timeout inst = num_of_Z 30000)
    /\ (forall t, timeout config = Some t -> number_truthy t = false ->
                  inst_timeout inst = num_of_Z 30000)
    /\ (forall t, timeout config = Some t -> number_truthy t = true ->
                  inst_timeout inst = t)
    /\ (forall c, req_baseURL (request_of config c) = baseURL inst
                  /\ req_timeout (request_of config c) = inst_timeout inst).
Proof.
  intros [key base tmo] inst. subst inst.
  cbn [baseUrl timeout client new_FiveSimClient baseURL inst_timeout].
  repeat split.
  - now intros ->.
  - now intros ->.
  - intros s -> Hs. destruct s; [contradiction | reflexivity].
  - now intros ->.
  - intros t -> Ht. unfold opt_truthy_num. now rewrite Ht.
  - intros t -> Ht. unfold opt_truthy_num. now rewrite Ht.
Qed.

(** ** Results are passed through *)

(** C8: when the reply to the check-order request is a 2xx response, the
    promise is fulfilled with the parsed body itself; in particular, for an
    Order body whose sms list has one entry, [sms[0].code] of the result is
    that entry's code. *)
Theorem checkOrder_returns_body
    (config : FiveSimConfig) (id : Z) (net : Network) (sent : list Request)
    (r : AxiosResponse) (order entry : gmap string value) (code : value) :
  net sent (request_of config (CallCheckOrder id)) = HttpReply r ->
  validateStatus (status r) = true ->
  data r = VObj order ->
  order !! "sms" = Some (VArr [VObj entry]) ->
  entry !! "code" = Some code ->
  exists result,
    checkOrder (new_FiveSimClient config) id net sent
    = (sent ++ [request_of config (CallCheckOrder id)], Fulfilled result)
    /\ result = data r
    /\ get_prop (get_index (get_prop result "sms") 0) "code" = code.
Proof.
  intros Hnet Hok Hbody Hsms Hcode. exists (data r).
  change (checkOrder (new_FiveSimClient config) id)
    with (invoke (new_FiveSimClient config) (CallCheckOrder id)).
  rewrite invoke_run, Hnet. unfold settle. rewrite Hok.
  split; [reflexivity|]. split; [reflexivity|].
  rewrite Hbody. cbn [get_prop]. rewrite Hsms. cbn [default get_index].
  cbn. now rewrite Hcode.
Qed.

Lemma checkOrder_returns_body_witness :
  exists result,
    checkOrder (new_FiveSimClient (mkConfig "test-api-key" None None)) 12345
      (fun _ _ => HttpReply (mkResponse 200 (VObj sample_order))) []
    = ([request_of (mkConfig "test-api-key" None None) (CallCheckOrder 12345)],
       Fulfilled result)
    /\ result = VObj sample_order
    /\ get_prop (get_index (get_prop result "sms") 0) "code" = VStr "12345".
Proof.
  apply (checkOrder_returns_body (mkConfig "test-api-key" None None) 12345
           (fun _ _ => HttpReply (mkResponse 200 (VObj sample_order))) []
           (mkResponse 200 (VObj sample_order)) sample_order sample_sms
           (VStr "12345"));
    reflexivity.
Defined.

(** ** More on [handleError] *)

Lemma message_of_obj (m : gmap string value) (dflt : string) :
  message_of (VObj m) dflt
  = match m !! "message" with
    | Some v => if truthy v then v else VStr dflt
    | None => VStr dflt
    end.
Proof.
  unfold message_of, get_prop, js_or. destruct (m !! "message"); reflexivity.
Qed.

Lemma message_of_not_text (body : value) :
  ~ textual_message body <->
  exists m v, body = VObj m /\ m !! "message" = Some v
              /\ truthy v = true /\ forall s, v <> VStr s.
Proof.
  unfold textual_message. split.
  - intros H. destruct body as [| |b|n|s|l|m];
      try solve [exfalso; apply H; eexists; reflexivity].
    rewrite message_of_obj in H.
    destruct (m !! "message") as [v|] eqn:Hm.
    + exists m, v. split; [reflexivity|]. split; [exact Hm|].
      destruct (truthy v) eqn:Hv.
      * split; [reflexivity|]. intros s ->. apply H. eexists; reflexivity.
      * exfalso. apply H. eexists; reflexivity.
    + exfalso. apply H. eexists; reflexivity.
  - intros [m [v [-> [Hm [Hv Hs]]]]] [s H].
    rewrite message_of_obj, Hm, Hv in H. exact (Hs s H).
Qed.

Lemma unprintable_truthy (v : value) : unprintable v = true -> truthy v = true.
Proof. destruct v; try discriminate; reflexivity. Qed.

Lemma message_of_unprintable (body : value) (dflt : string) :
  unprintable (message_of body dflt) = true <->
  exists m v, body = VObj m /\ m !! "message" = Some v /\ unprintable v = true.
Proof.
  split.
  - destruct body as [| |b|n|s|l|m]; try discriminate.
    rewrite message_of_obj.
    destruct (m !! "message") as [v|] eqn:Hm; [|discriminate].
    destruct (truthy v) eqn:Hv; [|discriminate].
    intros H. exists m, v. auto.
  - intros [m [v [-> [Hm Hv]]]]. rewrite message_of_obj, Hm.
    now rewrite (unprintable_truthy v Hv).
Qed.

(** [handleError] raises a [TypeError] in exactly two situations.  The status
    is 400 and the body is an object whose [message] property is truthy and not
    a string: a string method is applied to it.  Or the status is none of 400,
    401, 429 and 503 and the body is an object whose [message] property cannot
    be converted to a string (an object with a [toString] property of its own,
    or a list holding one): the constructor of the error converts it.  Without
    a response it never does. *)
Theorem handleError_throws_iff :
  forall (msg : string) (r : AxiosResponse),
    ((exists what, handleError (mkAxiosError msg (Some r)) = ThrowsTypeError what)
     <-> (status r = 400
          /\ exists m v, data r = VObj m /\ m !! "message" = Some v
                         /\ truthy v = true /\ forall s, v <> VStr s)
         \/ (status r <> 400 /\ status r <> 401 /\ status r <> 429
             /\ status r <> 503
             /\ exists m v, data r = VObj m /\ m !! "message" = Some v
                            /\ unprintable v = true))
    /\ (forall what, handleError (mkAxiosError msg None) <> ThrowsTypeError what).
Proof.
  intros msg [code body]. cbn [status data]. split; [|discriminate].
  rewrite <- message_of_not_text.
  rewrite <- (message_of_unprintable body "Unknown error"). split.
  - intros [what H].
    destruct (Z.eq_dec code 401) as [->|H401]; [discriminate|].
    destruct (Z.eq_dec code 429) as [->|H429]; [discriminate|].
    destruct (Z.eq_dec code 503) as [->|H503]; [discriminate|].
    destruct (Z.eq_dec code 400) as [->|H400].
    + left. split; [reflexivity|]. intros [s Hs].
      rewrite (handleError_400_text msg body s Hs) in H. discriminate.
    + right. rewrite handleError_other in H by assumption.
      destruct (unprintable (message_of body "Unknown error"));
        [auto | discriminate].
  - intros [[-> H]|[H400 [H401 [H429 [H503 H]]]]].
    + eexists. apply handleError_400_not_text. exact H.
    + eexists. rewrite handleError_other by assumption. rewrite H. reflexivity.
Qed.

(** The raw body survives in the error exactly for the base class: an error of
    class [FiveSimError] built from a response carries that response's body,
    while the authentication, rate-limit, service-unavailable and no-numbers
    errors carry no body at all. *)
Theorem handleError_response_field
    (msg : string) (r : AxiosResponse) (e : FiveSimErrorObj) :
  handleError (mkAxiosError msg (Some r)) = Returns e ->
  response e = match name e with
               | FiveSimErrorName => data r
               | _ => VUndefined
               end.
Proof.
  destruct r as [code body]. cbn [data].
  destruct (Z.eq_dec code 401) as [->|H401]; [intros [= <-]; reflexivity|].
  destruct (Z.eq_dec code 429) as [->|H429]; [intros [= <-]; reflexivity|].
  destruct (Z.eq_dec code 503) as [->|H503]; [intros [= <-]; reflexivity|].
  destruct (Z.eq_dec code 400) as [->|H400].
  - destruct (message_of body "") as [| |b|n|s|l|m] eqn:E.
    all: try (rewrite handleError_400_not_text by (intros [s' Hs']; congruence);
              discriminate).
    rewrite (handleError_400_text msg body s E).
    destruct (includes (toLowerCase s) "no"); intros [= <-]; reflexivity.
  - rewrite handleError_other by assumption.
    destruct (unprintable _); [discriminate|]. intros [= <-]. reflexivity.
Qed.

Lemma handleError_response_field_witness :
  response (mkError FiveSimErrorName "Unknown error" (Some 500)
              (VObj {[ "error" := VStr "boom" ]}))
  = match name (mkError FiveSimErrorName "Unknown error" (Some 500)
                  (VObj {[ "error" := VStr "boom" ]})) with
    | FiveSimErrorName => data (mkResponse 500 (VObj {[ "error" := VStr "boom" ]}))
    | _ => VUndefined
    end.
Proof.
  apply (handleError_response_field "Request failed with status code 500"
           (mkResponse 500 (VObj {[ "error" := VStr "boom" ]}))).
  reflexivity.
Defined.

(** The message of a returned error is never empty when there was no
    response or the status is 400, 401, 429 or 503: each of these paths has a
    fallback text.  For any other status a string body is taken as the message
    as it is, the empty string included: the "Unknown error" fallback applies
    to bodies that are not strings only. *)
Theorem handleError_message_fallbacks :
  (forall (error : AxiosError) (e : FiveSimErrorObj),
      handleError error = Returns e ->
      match ax_response error with
      | None => True
      | Some r => status r = 400 \/ status r = 401 \/ status r = 429 \/ status r = 503
      end ->
      message e <> "")
  /\ (forall (msg : string) (code : Z) (s : string),
         code <> 400 -> code <> 401 -> code <> 429 -> code <> 503 ->
         handleError (mkAxiosError msg (Some (mkResponse code (VStr s))))
         = Returns (mkError FiveSimErrorName s (Some code) (VStr s)))
  /\ (forall (msg : string) (code : Z) (body : value),
         code <> 400 -> code <> 401 -> code <> 429 -> code <> 503 ->
         (forall s, body <> VStr s) -> truthy (get_prop body "message") = false ->
         handleError (mkAxiosError msg (Some (mkResponse code body)))
         = Returns (mkError FiveSimErrorName "Unknown error" (Some code) body)).
Proof.
  split; [|split].
  - intros [msg [[code body]|]] e; cbn [ax_response status].
    + intros H [-> | [-> | [-> | ->]]].
      * destruct (message_of body "") as [| |b|n|s|l|m] eqn:E.
        all: try (rewrite handleError_400_not_text in H
                    by (intros [s' Hs']; congruence); discriminate).
        rewrite (handleError_400_text msg body s E) in H.
        destruct (includes (toLowerCase s) "no") eqn:Hno;
          injection H as <-; cbn.
        -- destruct s; [discriminate Hno | discriminate].
        -- destruct s; discriminate.
      * injection H as <-. discriminate.
      * injection H as <-. discriminate.
      * injection H as <-. discriminate.
    + intros H _. rewrite handleError_no_response in H. injection H as <-.
      cbn. destruct msg; discriminate.
  - intros msg code s H1 H2 H3 H4. rewrite handleError_other by assumption.
    reflexivity.
  - intros msg code body H1 H2 H3 H4 Hs Hm.
    rewrite handleError_other by assumption.
    unfold message_of, js_or. rewrite Hm.
    destruct body; try reflexivity. exfalso. eapply Hs. reflexivity.
Qed.

(** The no-numbers heuristic on a 400 response, in terms of the text alone:
    the error is the no-numbers error exactly when the lower-case form of the
    message text contains "no" somewhere, and it then carries the text in its
    original case; the test for "not available" never decides.  A text without
    "no" gives the base error with the text, or "Bad request" for the empty
    text. *)
Theorem no_numbers_heuristic :
  forall (msg : string) (body : value) (s : string),
    message_of body "" = VStr s ->
    ((exists pre post, toLowerCase s = pre +:+ "no" +:+ post)
     -> handleError (mkAxiosError msg (Some (mkResponse 400 body)))
        = Returns (mkError NoNumbersErrorName s (Some 400) VUndefined))
    /\ (~ (exists pre post, toLowerCase s = pre +:+ "no" +:+ post)
        -> handleError (mkAxiosError msg (Some (mkResponse 400 body)))
           = Returns (mkError FiveSimErrorName (str_or s "Bad request")
                        (Some 400) body)).
Proof.
  intros msg body s Hs. rewrite (handleError_400_text msg body s Hs).
  rewrite <- includes_spec. split.
  - intros ->. reflexivity.
  - intros H. destruct (includes (toLowerCase s) "no"); [contradiction|reflexivity].
Qed.

Lemma no_numbers_heuristic_witness :
  ((exists pre post, toLowerCase "Not enough user balance" = pre +:+ "no" +:+ post)
   -> handleError (mkAxiosError "Request failed with status code 400"
                     (Some (mkResponse 400 (VStr "Not enough user balance"))))
      = Returns (mkError NoNumbersErrorName "Not enough user balance"
                   (Some 400) VUndefined))
  /\ (~ (exists pre post, toLowerCase "Not enough user balance" = pre +:+ "no" +:+ post)
      -> handleError (mkAxiosError "Request failed with status code 400"
                        (Some (mkResponse 400 (VStr "Not enough user balance"))))
         = Returns (mkError FiveSimErrorName
                      (str_or "Not enough user balance" "Bad request")
                      (Some 400) (VStr "Not enough user balance"))).
Proof.
  apply (no_numbers_heuristic "Request failed with status code 400"
           (VStr "Not enough user balance") "Not enough user balance").
  reflexivity.
Defined.

(** ** The characters of query strings *)

Ltac each_ascii c :=
  let b0 := fresh in let b1 := fresh in let b2 := fresh in let b3 := fresh in
  let b4 := fresh in let b5 := fresh in let b6 := fresh in let b7 := fresh in
  destruct c as [b0 b1 b2 b3 b4 b5 b6 b7];
  destruct b0, b1, b2, b3, b4, b5, b6, b7.

Lemma append_assoc (a b c : string) : (a +:+ b) +:+ c = a +:+ (b +:+ c).
Proof.
  induction a as [|x a IH]; [reflexivity|].
  change (String x ((a +:+ b) +:+ c) = String x (a +:+ (b +:+ c))).
  now rewrite IH.
Qed.

Lemma string_forall_app (P : ascii -> bool) (a b : string) :
  string_forall P (a +:+ b) = string_forall P a && string_forall P b.
Proof.
  induction a as [|x a IH]; [reflexivity|].
  change (P x && string_forall P (a +:+ b)
          = P x && string_forall P a && string_forall P b).
  rewrite IH. now destruct (P x).
Qed.

Lemma string_forall_impl (P Q : ascii -> bool) (s : string) :
  (forall c, P c = true -> Q c = true) ->
  string_forall P s = true -> string_forall Q s = true.
Proof.
  intros HPQ. induction s as [|x s IH]; [reflexivity|]. simpl.
  rewrite !andb_true_iff. intros [Hx Hs]. auto.
Qed.

Lemma form_encode_byte_chars (c : ascii) :
  string_forall encoded_char (form_encode_byte c) = true.
Proof. each_ascii c; reflexivity. Qed.

Lemma form_encode_chars (s : string) :
  string_forall encoded_char (form_encode s) = true.
Proof.
  induction s as [|c s IH]; [reflexivity|].
  change (string_forall encoded_char (form_encode_byte c +:+ form_encode s) = true).
  now rewrite string_forall_app, form_encode_byte_chars, IH.
Qed.

Lemma encoded_char_query (c : ascii) : encoded_char c = true -> query_char c = true.
Proof. unfold query_char. now intros ->. Qed.

Lemma params_toString_step (kv kv' : string * string) (p : URLSearchParams) :
  params_toString (kv :: kv' :: p)
  = (form_encode (fst kv) +:+ "=" +:+ form_encode (snd kv))
      +:+ String "&" (params_toString (kv' :: p)).
Proof. reflexivity. Qed.

Lemma getPrices_params_eq (options : option GetPricesOptions) :
  getPrices_params options
  = match opt_truthy_str (options ≫= prices_country) with
    | Some c => [("country", c)]
    | None => []
    end
    ++ match opt_truthy_str (options ≫= prices_product) with
       | Some p => [("product", p)]
       | None => []
       end.
Proof.
  unfold getPrices_params.
  destruct (opt_truthy_str (options ≫= prices_country)),
    (opt_truthy_str (options ≫= prices_product)); reflexivity.
Qed.

Lemma num_toString_inj (n n' : Z) : num_toString n = num_toString n' -> n = n'.
Proof. apply (inj pretty). Qed.

(** Every character of a serialized query is an ASCII letter or digit or one
    of [* - . _ + % & =], whatever the parameter values are: get-prices and
    get-order-history request their fixed path, followed by nothing or by [?]
    and such a query. *)
Theorem query_string_charset :
  (forall p : URLSearchParams, string_forall query_char (params_toString p) = true)
  /\ (forall options,
         getPrices_url options = "/guest/prices"
         \/ exists q, getPrices_url options = "/guest/prices?" +:+ q
                      /\ string_forall query_char q = true)
  /\ (forall options,
         getOrderHistory_url options = "/user/orders"
         \/ exists q, getOrderHistory_url options = "/user/orders?" +:+ q
                      /\ string_forall query_char q = true).
Proof.
  assert (forall p : URLSearchParams,
             string_forall query_char (params_toString p) = true) as Hall.
  { induction p as [|[k v] p IH]; [reflexivity|].
    assert (string_forall query_char (form_encode k +:+ "=" +:+ form_encode v) = true)
      as Hpair.
    { assert (forall s, string_forall query_char (form_encode s) = true) as Henc.
      { intros s. apply string_forall_impl with (P := encoded_char);
          [apply encoded_char_query | apply form_encode_chars]. }
      rewrite !string_forall_app, !Henc. reflexivity. }
    destruct p as [|kv' p]; [exact Hpair|].
    rewrite params_toString_step. cbn [fst snd].
    rewrite string_forall_app, Hpair. simpl. exact IH. }
  split; [exact Hall|]. split; intros options.
  - unfold getPrices_url. rewrite with_query_params.
    destruct (getPrices_params options) as [|kv p]; [now left|].
    right. eexists. split; [reflexivity | apply Hall].
  - unfold getOrderHistory_url. rewrite with_query_params.
    destruct (getOrderHistory_params options) as [|kv p]; [now left|].
    right. eexists. split; [reflexivity | apply Hall].
Qed.

(** ** Paths *)

(** Path parameters are interpolated as they are, without escaping, so a [/]
    or a [?] inside one changes the structure of the URL: get-products for
    country [a/b] and operator [c] issues the very request of country [a] and
    operator [b/c], and buy-activation for product [p?forwarding=1] without
    forwarding issues the very request of product [p] with forwarding. *)
Theorem path_parameters_not_escaped :
  forall config : FiveSimConfig,
    (forall a b c : string,
        request_of config (CallGetProducts (a +:+ "/" +:+ b) c)
        = request_of config (CallGetProducts a (b +:+ "/" +:+ c)))
    /\ (forall (country operator product : string) (x : ascii) (fwd : string),
           request_of config
             (CallBuyActivation
                (mkBuyActivationOptions country operator
                   (product +:+ "?forwarding=1") None))
           = request_of config
               (CallBuyActivation
                  (mkBuyActivationOptions country operator product
                     (Some (String x fwd))))).
Proof.
  intros config. split.
  - intros a b c. unfold request_of. f_equal. cbn [call_url].
    now rewrite !append_assoc.
  - intros country operator product x fwd. unfold request_of. f_equal.
    cbn [call_url]. unfold buyActivation_url, buyActivation_path.
    cbn [act_country act_operator act_product forwarding buyActivation_params
           opt_truthy_str str_truthy params_append app].
    unfold with_query.
    change (params_toString []) with "".
    change (params_toString [("forwarding", "1")]) with "forwarding=1".
    cbn [str_truthy]. rewrite append_empty_r, !append_assoc. reflexivity.
Qed.

(** A check, finish, cancel or ban request is issued by that call for that
    order only: the URL of such a call differs from the URL of every other
    call of the client, whatever the arguments. *)
Theorem order_call_url_inj (c c' : Call) :
  order_call c = true -> call_url c = call_url c' -> c = c'.
Proof.
  intros Hc H. destruct c; try discriminate Hc; destruct c';
    cbn [call_url] in H;
    unfold getOrderHistory_url, getPrices_url, buyActivation_url,
      buyActivation_path, with_query in H;
    cbv [String.append] in H; try discriminate H.
  all: f_equal; apply num_toString_inj; congruence.
Qed.

Lemma order_call_url_inj_witness :
  CallCancelOrder 12345 = CallCancelOrder 12345.
Proof.
  apply (order_call_url_inj (CallCancelOrder 12345) (CallCancelOrder 12345));
    reflexivity.
Defined.

(** Each query parameter is appended at most once and in a fixed order:
    category, limit, offset for get-order-history, country, product for
    get-prices; buy-activation appends nothing or the single pair
    forwarding=1. *)
Theorem query_parameters_ordered :
  (forall options,
      map fst (getOrderHistory_params options)
        `sublist_of` ["category"; "limit"; "offset"])
  /\ (forall options,
         map fst (getPrices_params options) `sublist_of` ["country"; "product"])
  /\ (forall options,
         buyActivation_params options = []
         \/ buyActivation_params options = [("forwarding", "1")]).
Proof.
  split; [|split]; intros options.
  - rewrite getOrderHistory_params_eq.
    destruct (options ≫= category), (options ≫= limit) as [n|],
      (options ≫= offset); try destruct (number_truthy n); cbn [app map fst];
      repeat constructor.
  - rewrite getPrices_params_eq.
    destruct (opt_truthy_str (options ≫= prices_country)),
      (opt_truthy_str (options ≫= prices_product)); cbn [app map fst];
      repeat constructor.
  - unfold buyActivation_params.
    destruct (opt_truthy_str (forwarding options)); [now right | now left].
Qed.

(** ** The activation script *)

Section ScriptRuns.
Variable str_positive : string -> bool.
Variable config : FiveSimConfig.

Lemma at_run (prefix : string) (id : value) (net : Network) (sent : list Request) :
  (u ← convert id;
   r ← axios_get (client (new_FiveSimClient config)) (prefix +:+ u);
   mret (data r)) net sent
  = if unprintable id
    then (sent, Rejected (RejectTypeError "Cannot convert object to primitive value"))
    else (sent ++ [request_to config (prefix +:+ ToString id)],
          settle (net sent (request_to config (prefix +:+ ToString id)))).
Proof.
  unfold mbind at 1. unfold Client_bind at 1. unfold convert.
  destruct (unprintable id); [reflexivity|].
  cbn [mret Client_ret]. apply axios_get_run.
Qed.

(** One round of the polling loop. *)
Lemma poll_step (id : value) (n : nat) (net : Network) (sent : list Request) :
  poll str_positive (new_FiveSimClient config) id (S n) net sent
  = let check := check_request config (ToString id) in
    let sent1 := sent ++ [check] in
    let conversion : Rejection :=
      RejectTypeError "Cannot convert object to primitive value" in
    if unprintable id then (sent, Rejected conversion)
    else
      match settle (net sent check) with
      | Rejected reason => (sent1, Rejected reason)
      | Fulfilled status =>
          if nullish status then
            (sent1, Rejected (RejectTypeError
                                ("Cannot read properties of " +:+ ToString status
                                   +:+ " (reading 'status')")))
          else if existsb unprintable
                    [get_prop status "status";
                     js_or (get_length (get_prop status "sms")) (VNum Zero)]
          then (sent1, Rejected conversion)
          else if sms_received str_positive status then
            if nullish (get_first (get_prop status "sms")) then
              (sent1, Rejected (RejectTypeError
                                  ("Cannot read properties of "
                                     +:+ ToString (get_first (get_prop status "sms"))
                                     +:+ " (reading 'sender')")))
            else if existsb unprintable
                      [get_prop (get_first (get_prop status "sms")) "sender";
                       get_prop (get_first (get_prop status "sms")) "text";
                       js_or (get_prop (get_first (get_prop status "sms")) "code")
                         (VStr "N/A")]
            then (sent1, Rejected conversion)
            else
              (sent1 ++ [finish_request config (ToString id)],
               match settle (net sent1 (finish_request config (ToString id))) with
               | Fulfilled _ => Fulfilled true
               | Rejected reason => Rejected reason
               end)
          else if order_closed status then (sent1, Fulfilled true)
          else poll str_positive (new_FiveSimClient config) id n net sent1
      end.
Proof.
  cbn zeta. cbn [poll]. unfold mbind at 1. unfold Client_bind at 1.
  unfold checkOrder_at. rewrite at_run.
  destruct (unprintable id) eqn:Hid; [reflexivity|].
  fold (check_request config (ToString id)).
  destruct (settle (net sent (check_request config (ToString id))))
    as [status|reason]; [|reflexivity].
  unfold mbind at 1. unfold Client_bind at 1. unfold read_member at 1.
  destruct (nullish status) eqn:Hnull; [reflexivity|].
  cbn [mret Client_ret].
  unfold mbind at 1. unfold Client_bind at 1. unfold print at 1.
  destruct (existsb unprintable
              [get_prop status "status";
               js_or (get_length (get_prop status "sms")) (VNum Zero)]) eqn:Hprint;
    [reflexivity|].
  cbn [mret Client_ret].
  destruct (sms_received str_positive status) eqn:Hrec.
  - cbn zeta. unfold mbind at 1. unfold Client_bind at 1. unfold read_member at 1.
    destruct (nullish (get_first (get_prop status "sms"))) eqn:Hfirst;
      [reflexivity|].
    cbn [mret Client_ret].
    unfold mbind at 1. unfold Client_bind at 1. unfold print at 1.
    destruct (existsb unprintable
                [get_prop (get_first (get_prop status "sms")) "sender";
                 get_prop (get_first (get_prop status "sms")) "text";
                 js_or (get_prop (get_first (get_prop status "sms")) "code")
                   (VStr "N/A")]) eqn:Hprint'; [reflexivity|].
    cbn [mret Client_ret].
    unfold mbind at 1. unfold Client_bind at 1.
    unfold finishOrder_at. rewrite at_run, Hid.
    fold (finish_request config (ToString id)).
    destruct (settle _); reflexivity.
  - unfold order_closed.
    destruct (status_is status "TIMEOUT" || status_is status "CANCELED");
      reflexivity.
Qed.
End ScriptRuns.

Lemma settle_fulfilled (reply : Reply) (v : value) :
  settle reply = Fulfilled v ->
  exists r, reply = HttpReply r /\ validateStatus (status r) = true /\ data r = v.
Proof.
  destruct reply as [reason|r]; [discriminate|]. unfold settle.
  destruct (validateStatus (status r)) eqn:Hok; [|discriminate].
  intros [= <-]. eauto.
Qed.

Lemma repeat_snoc {A : Type} (x : A) (k : nat) (l : list A) :
  (l ++ [x]) ++ repeat x k = l ++ repeat x (S k).
Proof. rewrite <- app_assoc. reflexivity. Qed.

Section ScriptTraces.
Variable str_positive : string -> bool.
Variable config : FiveSimConfig.

(** The requests of the polling loop: [k] checks, at most as many as there
    are rounds, followed by a finish request or by nothing. *)
Lemma poll_trace (id : value) (n : nat) (net : Network) (sent : list Request) :
  exists k tail,
    (k <= n)%nat
    /\ fst (poll str_positive (new_FiveSimClient config) id n net sent)
       = sent ++ repeat (check_request config (ToString id)) k ++ tail
    /\ ((tail = []
         /\ (snd (poll str_positive (new_FiveSimClient config) id n net sent)
             = Fulfilled false -> k = n))
        \/ (tail = [finish_request config (ToString id)]
            /\ snd (poll str_positive (new_FiveSimClient config) id n net sent)
               <> Fulfilled false
            /\ exists j, k = S j
                 /\ finish_guard str_positive
                      (net (sent ++ repeat (check_request config (ToString id)) j)
                         (check_request config (ToString id))))).
Proof.
  revert sent. induction n as [|n IH]; intros sent.
  - exists 0%nat, []. split; [lia|]. split; [cbn; now rewrite app_nil_r|].
    left. split; reflexivity.
  - rewrite poll_step. cbn zeta.
    destruct (unprintable id) eqn:Hid.
    { exists 0%nat, []. split; [lia|]. split; [cbn; now rewrite app_nil_r|].
      left. split; [reflexivity | cbn [snd]; discriminate]. }
    destruct (settle (net sent (check_request config (ToString id))))
      as [status|reason] eqn:Hsettle.
    2: { exists 1%nat, []. split; [lia|]. split; [reflexivity|].
         left. split; [reflexivity | cbn [snd]; discriminate]. }
    destruct (nullish status) eqn:Hnull.
    { exists 1%nat, []. split; [lia|]. split; [reflexivity|].
      left. split; [reflexivity | cbn [snd]; discriminate]. }
    destruct (existsb unprintable
                [get_prop status "status";
                 js_or (get_length (get_prop status "sms")) (VNum Zero)]).
    { exists 1%nat, []. split; [lia|]. split; [reflexivity|].
      left. split; [reflexivity | cbn [snd]; discriminate]. }
    destruct (sms_received str_positive status) eqn:Hrec.
    + destruct (nullish (get_first (get_prop status "sms"))) eqn:Hfirst.
      { exists 1%nat, []. split; [lia|]. split; [reflexivity|].
        left. split; [reflexivity | cbn [snd]; discriminate]. }
      destruct (existsb unprintable
                  [get_prop (get_first (get_prop status "sms")) "sender";
                   get_prop (get_first (get_prop status "sms")) "text";
                   js_or (get_prop (get_first (get_prop status "sms")) "code")
                     (VStr "N/A")]).
      { exists 1%nat, []. split; [lia|]. split; [reflexivity|].
        left. split; [reflexivity | cbn [snd]; discriminate]. }
      exists 1%nat, [finish_request config (ToString id)].
      split; [lia|]. split; [cbn [fst repeat]; now rewrite <- app_assoc|].
      right. split; [reflexivity|]. split.
      * cbn [snd]. destruct (settle (net _ (finish_request _ _))); discriminate.
      * exists 0%nat. split; [reflexivity|]. cbn [repeat]. rewrite app_nil_r.
        apply settle_fulfilled in Hsettle as [r [Hr [Hok <-]]].
        unfold sms_received in Hrec. rewrite !andb_true_iff in Hrec.
        destruct Hrec as [[H1 H2] H3]. exists r. repeat split; assumption.
    + destruct (order_closed status) eqn:Hclosed.
      { exists 1%nat, []. split; [lia|]. split; [reflexivity|].
        left. split; [reflexivity | cbn [snd]; discriminate]. }
      destruct (IH (sent ++ [check_request config (ToString id)]))
        as [k [tail [Hk [Hfst Hcases]]]].
      exists (S k), tail. split; [lia|]. split.
      * rewrite Hfst, app_assoc, repeat_snoc, <- app_assoc. reflexivity.
      * destruct Hcases as [[-> Hex]|[-> [Hne [j [-> Hguard]]]]].
        -- left. split; [reflexivity|]. intros H. now rewrite (Hex H).
        -- right. split; [reflexivity|]. split; [exact Hne|].
           exists (S j). split; [reflexivity|].
           rewrite <- repeat_snoc. exact Hguard.
Qed.
End ScriptTraces.

Section ScriptTheorems.
Variable str_positive : string -> bool.
Variable config : FiveSimConfig.

(** The script, step by step; [handled] is its catch clause: a no-numbers
    error ends the script quietly, anything else is thrown again. *)
Lemma testActivation_run (net : Network) (sent : list Request) :
  testActivation str_positive (new_FiveSimClient config) net sent
  = let sent1 := sent ++ [buy_request config] in
    let handled (reason : Rejection) : Promise unit :=
      if instanceof_NoNumbersError reason then Fulfilled tt else Rejected reason in
    match settle (net sent (buy_request config)) with
    | Rejected reason => (sent1, handled reason)
    | Fulfilled order =>
        if nullish order then
          (sent1, Rejected (RejectTypeError
                              ("Cannot read properties of " +:+ ToString order
                                 +:+ " (reading 'phone')")))
        else if existsb unprintable
                  [get_prop order "phone"; get_prop order "id";
                   get_prop order "price"; get_prop order "expires"]
        then (sent1, Rejected (RejectTypeError
                                 "Cannot convert object to primitive value"))
        else
          match poll str_positive (new_FiveSimClient config)
                  (get_prop order "id") 12 net sent1 with
          | (sent2, Rejected reason) => (sent2, handled reason)
          | (sent2, Fulfilled true) => (sent2, Fulfilled tt)
          | (sent2, Fulfilled false) =>
              (sent2 ++ [cancel_request config (ToString (get_prop order "id"))],
               match settle (net sent2
                               (cancel_request config
                                  (ToString (get_prop order "id")))) with
               | Fulfilled _ => Fulfilled tt
               | Rejected reason => handled reason
               end)
          end
    end.
Proof.
  cbn zeta. unfold testActivation, try_catch.
  unfold mbind at 1. unfold Client_bind at 1.
  unfold buyActivation. rewrite axios_get_run.
  change (mkRequest "GET" _ _ _ _) with (buy_request config).
  destruct (settle (net sent (buy_request config))) as [order|reason].
  2: { unfold throw, mret, Client_ret.
       destruct (instanceof_NoNumbersError reason); reflexivity. }
  unfold mbind at 1. unfold Client_bind at 1. unfold read_member at 1.
  destruct (nullish order) eqn:Hnull; [reflexivity|].
  cbn [mret Client_ret].
  unfold mbind at 1. unfold Client_bind at 1. unfold print at 1.
  destruct (existsb unprintable
              [get_prop order "phone"; get_prop order "id";
               get_prop order "price"; get_prop order "expires"]) eqn:Hprint;
    [reflexivity|].
  assert (unprintable (get_prop order "id") = false) as Hid.
  { cbn [existsb] in Hprint. rewrite !orb_false_iff in Hprint. tauto. }
  cbn [mret Client_ret].
  unfold mbind at 1. unfold Client_bind at 1.
  destruct (poll str_positive (new_FiveSimClient config) (get_prop order "id")
              12 net (sent ++ [buy_request config])) as [sent2 [[|]|reason]].
  - reflexivity.
  - unfold mbind at 1. unfold Client_bind at 1.
    unfold cancelOrder_at. rewrite at_run, Hid.
    fold (cancel_request config (ToString (get_prop order "id"))).
    destruct (settle _) as [v|reason]; [reflexivity|].
    unfold throw, mret, Client_ret.
    destruct (instanceof_NoNumbersError reason); reflexivity.
  - unfold throw, mret, Client_ret.
    destruct (instanceof_NoNumbersError reason); reflexivity.
Qed.

(** The requests of one run, and what allowed a finish request. *)
Lemma testActivation_trace (net : Network) (sent : list Request) :
  exists (id : string) (k : nat) (tail : list Request),
    (k <= 12)%nat
    /\ fst (testActivation str_positive (new_FiveSimClient config) net sent)
       = sent ++ buy_request config :: repeat (check_request config id) k ++ tail
    /\ (tail = []
        \/ (tail = [finish_request config id]
            /\ exists j, k = S j
                 /\ finish_guard str_positive
                      (net (sent ++ buy_request config
                              :: repeat (check_request config id) j)
                         (check_request config id)))
        \/ (tail = [cancel_request config id] /\ k = 12%nat)).
Proof.
  rewrite testActivation_run. cbn zeta.
  destruct (settle (net sent (buy_request config))) as [order|reason].
  2: { exists "", 0%nat, []. split; [lia|]. split; [reflexivity | now left]. }
  destruct (nullish order).
  { exists "", 0%nat, []. split; [lia|]. split; [reflexivity | now left]. }
  destruct (existsb unprintable
              [get_prop order "phone"; get_prop order "id";
               get_prop order "price"; get_prop order "expires"]).
  { exists "", 0%nat, []. split; [lia|]. split; [reflexivity | now left]. }
  destruct (poll_trace str_positive config (get_prop order "id") 12 net
              (sent ++ [buy_request config])) as [k [tail [Hk [Hfst Hcases]]]].
  destruct (poll str_positive (new_FiveSimClient config) (get_prop order "id")
              12 net (sent ++ [buy_request config])) as [sent2 out].
  cbn [fst snd] in Hfst, Hcases. subst sent2.
  assert (forall j, (sent ++ [buy_request config])
                      ++ repeat (check_request config
                                   (ToString (get_prop order "id"))) j
                    = sent ++ buy_request config
                        :: repeat (check_request config
                                     (ToString (get_prop order "id"))) j)
    as Hshift by (intros j; now rewrite <- app_assoc).
  assert (exists tail',
             fst (let '(sent2, out') :=
                    ((sent ++ [buy_request config])
                       ++ repeat (check_request config
                                    (ToString (get_prop order "id"))) k ++ tail,
                     out) in
                  match out' with
                  | Fulfilled true => (sent2, Fulfilled tt)
                  | Fulfilled false =>
                      (sent2 ++ [cancel_request config
                                   (ToString (get_prop order "id"))],
                       match settle (net sent2
                                       (cancel_request config
                                          (ToString (get_prop order "id")))) with
                       | Fulfilled _ => Fulfilled tt
                       | Rejected reason =>
                           if instanceof_NoNumbersError reason
                           then Fulfilled tt else Rejected reason
                       end)
                  | Rejected reason =>
                      (sent2, if instanceof_NoNumbersError reason
                              then Fulfilled tt else Rejected reason)
                  end)
             = sent ++ buy_request config
                 :: repeat (check_request config
                              (ToString (get_prop order "id"))) k ++ tail'
             /\ (tail' = tail /\ out <> Fulfilled false
                 \/ tail' = tail ++ [cancel_request config
                                       (ToString (get_prop order "id"))]
                    /\ out = Fulfilled false)) as [tail' [Hlog Htail]].
  { destruct out as [[|]|reason]; cbn [fst].
    - exists tail. split; [now rewrite <- app_assoc | left; split; [reflexivity|discriminate]].
    - exists (tail ++ [cancel_request config (ToString (get_prop order "id"))]).
      split; [now rewrite <- !app_assoc | right; split; reflexivity].
    - exists tail. split; [now rewrite <- app_assoc | left; split; [reflexivity|discriminate]]. }
  exists (ToString (get_prop order "id")), k, tail'.
  split; [exact Hk|]. split; [exact Hlog|].
  destruct Htail as [[-> Hout]|[-> ->]].
  - destruct Hcases as [[-> _]|[-> [_ [j [-> Hguard]]]]]; [now left|].
    right; left. split; [reflexivity|]. exists j. split; [reflexivity|].
    rewrite <- Hshift. exact Hguard.
  - destruct Hcases as [[-> Hex]|[_ [Hne _]]]; [|contradiction].
    right; right. split; [reflexivity | now apply Hex].
Qed.
End ScriptTheorems.

Lemma request_to_inj (config : FiveSimConfig) (u u' : string) :
  request_to config u = request_to config u' -> u = u'.
Proof. unfold request_to. intros H. now injection H. Qed.

Lemma repeat_last {A : Type} (x : A) (j : nat) :
  repeat x (S j) = repeat x j ++ [x].
Proof. induction j as [|j IH]; [reflexivity|]. cbn [repeat app] in *. now rewrite <- IH. Qed.

(** One run of the activation script issues the buy request, then between
    zero and twelve check requests for one order, then at most one more
    request: a finish request, or, after twelve checks only, a cancel
    request.  So a run issues between 1 and 14 requests and never both
    finishes and cancels. *)
Theorem testActivation_requests :
  forall (str_positive : string -> bool) (config : FiveSimConfig)
         (net : Network) (sent : list Request),
    exists (id : string) (k : nat) (tail : list Request),
      (k <= 12)%nat
      /\ fst (testActivation str_positive (new_FiveSimClient config) net sent)
         = sent ++ buy_request config :: repeat (check_request config id) k ++ tail
      /\ (tail = []
          \/ (tail = [finish_request config id] /\ (1 <= k)%nat)
          \/ (tail = [cancel_request config id] /\ k = 12%nat))
      /\ (length sent + 1
          <= length (fst (testActivation str_positive (new_FiveSimClient config)
                            net sent))
          <= length sent + 14)%nat.
Proof.
  intros sp config net sent.
  destruct (testActivation_trace sp config net sent)
    as [id [k [tail [Hk [Hfst Hcases]]]]].
  exists id, k, tail. split; [exact Hk|]. split; [exact Hfst|]. split.
  - destruct Hcases as [->|[[-> [j [-> _]]]|[-> ->]]].
    + now left.
    + right; left. split; [reflexivity | lia].
    + right; right. split; reflexivity.
  - rewrite Hfst. rewrite length_app. cbn [length]. rewrite length_app, repeat_length.
    destruct Hcases as [->|[[-> _]|[-> _]]]; cbn [length]; lia.
Qed.

(** The script never fails with a no-numbers error: whichever of its calls
    raised it, the purchase or a later check, finish or cancel, the error is
    swallowed and the run ends normally.  When the purchase fails, no further
    request is made; when the purchase answers with [null], the run fails
    with a [TypeError] after that one request. *)
Theorem testActivation_errors :
  forall (str_positive : string -> bool) (config : FiveSimConfig)
         (net : Network) (sent : list Request),
    (forall reason,
        snd (testActivation str_positive (new_FiveSimClient config) net sent)
        = Rejected reason ->
        instanceof_NoNumbersError reason = false)
    /\ (forall reason,
           settle (net sent (buy_request config)) = Rejected reason ->
           testActivation str_positive (new_FiveSimClient config) net sent
           = (sent ++ [buy_request config],
              if instanceof_NoNumbersError reason then Fulfilled tt
              else Rejected reason))
    /\ (forall order,
           settle (net sent (buy_request config)) = Fulfilled order ->
           nullish order = true ->
           testActivation str_positive (new_FiveSimClient config) net sent
           = (sent ++ [buy_request config],
              Rejected (RejectTypeError
                          ("Cannot read properties of " +:+ ToString order
                             +:+ " (reading 'phone')")))).
Proof.
  intros sp config net sent.
  assert (forall (reason reason' : Rejection),
             (if instanceof_NoNumbersError reason
              then Fulfilled tt else @Rejected unit reason) = Rejected reason' ->
             instanceof_NoNumbersError reason' = false) as Hhandled.
  { intros reason reason'.
    destruct (instanceof_NoNumbersError reason) eqn:E; [discriminate|].
    now intros [= <-]. }
  split; [|split].
  - intros reason. rewrite testActivation_run. cbn zeta.
    destruct (settle (net sent (buy_request config))) as [order|r0];
      [|apply Hhandled].
    destruct (nullish order); [now intros [= <-]|].
    destruct (existsb unprintable
                [get_prop order "phone"; get_prop order "id";
                 get_prop order "price"; get_prop order "expires"]);
      [now intros [= <-]|].
    destruct (poll sp (new_FiveSimClient config) (get_prop order "id") 12 net
                (sent ++ [buy_request config])) as [sent2 [[|]|r1]]; cbn [snd].
    + discriminate.
    + destruct (settle _) as [v|r2]; [discriminate | apply Hhandled].
    + apply Hhandled.
  - intros reason H. rewrite testActivation_run. cbn zeta. now rewrite H.
  - intros order H Hnull. rewrite testActivation_run. cbn zeta.
    now rewrite H, Hnull.
Qed.

(** The script finishes an order only on the strength of the check just
    before: when the last request of a run is a finish request, the request
    before it is a check of the same order, and the reply to that check was a
    2xx response whose body has status RECEIVED and a non-empty [sms] whose
    first entry is neither [null] nor [undefined]. *)
Theorem testActivation_finish_guard
    (str_positive : string -> bool) (config : FiveSimConfig)
    (net : Network) (sent pre : list Request) (id : string) :
  fst (testActivation str_positive (new_FiveSimClient config) net sent)
  = sent ++ pre ++ [finish_request config id] ->
  exists pre',
    pre = pre' ++ [check_request config id]
    /\ finish_guard str_positive (net (sent ++ pre') (check_request config id)).
Proof.
  intros H.
  destruct (testActivation_trace str_positive config net sent)
    as [id0 [k [tail [Hk [Hfst Hcases]]]]].
  rewrite Hfst in H. apply app_inv_head in H.
  assert (forall u, request_to config u = finish_request config id ->
                    u = "/user/finish/" +:+ id) as Hfin
    by (intros u Hu; now apply request_to_inj in Hu).
  destruct Hcases as [->|[[-> [j [-> Hguard]]]|[-> ->]]].
  - exfalso. rewrite app_nil_r in H. destruct k as [|k].
    + destruct pre as [|x [|y pre]]; cbn [repeat app] in H; discriminate H.
    + rewrite repeat_last in H.
      change (buy_request config :: repeat (check_request config id0) k
                ++ [check_request config id0])
        with ((buy_request config :: repeat (check_request config id0) k)
                ++ [check_request config id0]) in H.
      apply app_inj_tail in H as [_ H]. apply Hfin in H.
      cbv [String.append] in H. discriminate H.
  - change (buy_request config :: repeat (check_request config id0) (S j)
              ++ [finish_request config id0])
      with ((buy_request config :: repeat (check_request config id0) (S j))
              ++ [finish_request config id0]) in H.
    apply app_inj_tail in H as [Hpre H]. apply Hfin in H.
    apply (inj (String.append "/user/finish/")) in H. subst id0.
    exists (buy_request config :: repeat (check_request config id) j).
    split; [|exact Hguard].
    rewrite <- Hpre, repeat_last. reflexivity.
  - exfalso.
    change (buy_request config :: repeat (check_request config id0) 12
              ++ [cancel_request config id0])
      with ((buy_request config :: repeat (check_request config id0) 12)
              ++ [cancel_request config id0]) in H.
    apply app_inj_tail in H as [_ H]. apply Hfin in H.
    cbv [String.append] in H. discriminate H.
Qed.

Lemma testActivation_finish_guard_witness :
  exists pre',
    [buy_request (mkConfig "test-api-key" None None);
     check_request (mkConfig "test-api-key" None None) "12345"]
    = pre' ++ [check_request (mkConfig "test-api-key" None None) "12345"]
    /\ finish_guard (fun _ => false)
         ((fun _ _ => HttpReply (mkResponse 200 (VObj sample_order)))
            ([] ++ pre')
            (check_request (mkConfig "test-api-key" None None) "12345")).
Proof.
  apply (testActivation_finish_guard (fun _ => false)
           (mkConfig "test-api-key" None None)
           (fun _ _ => HttpReply (mkResponse 200 (VObj sample_order))) []
           [buy_request (mkConfig "test-api-key" None None);
            check_request (mkConfig "test-api-key" None None) "12345"]
           "12345").
  vm_compute. reflexivity.
Defined.

(** Three runs: an SMS on the first check; an order that stays pending; a
    purchase refused for lack of numbers. *)
Example test_script_runs :
  let config := mkConfig "test-api-key" None None in
  let pending : value :=
    VObj (<["id" := VNum (num_of_Z 7)]> (<["status" := VStr "PENDING"]>
                                (<["sms" := VArr []]> ∅))) in
  testActivation (fun _ => false) (new_FiveSimClient config)
    (fun _ _ => HttpReply (mkResponse 200 (VObj sample_order))) []
  = ([buy_request config; check_request config "12345";
      finish_request config "12345"], Fulfilled tt)
  /\ testActivation (fun _ => false) (new_FiveSimClient config)
       (fun _ _ => HttpReply (mkResponse 200 pending)) []
     = (buy_request config :: repeat (check_request config "7") 12
          ++ [cancel_request config "7"], Fulfilled tt)
  /\ testActivation (fun _ => false) (new_FiveSimClient config)
       (fun _ _ => HttpReply (mkResponse 400 (VStr "no free phones"))) []
     = ([buy_request config], Fulfilled tt)
  /\ testActivation (fun _ => false) (new_FiveSimClient config)
       (fun sent _ =>
          match sent with
          | [] => HttpReply (mkResponse 200 pending)
          | _ => HttpReply (mkResponse 400 (VStr "order not found"))
          end) []
     = ([buy_request config; check_request config "7"], Fulfilled tt)
  /\ testActivation (fun _ => false) (new_FiveSimClient config)
       (fun _ _ => HttpReply (mkResponse 401 (VStr "Unauthorized"))) []
     = ([buy_request config], Rejected (RejectError (AuthenticationError None))).
Proof. repeat split; vm_compute; reflexivity. Qed.
